(** * avionics_main: configuration constants, avionics main loop and drag model

    A shallow embedding of the three Python sources

      - [modules/Config.py]            module [Config]
      - [src/Avionics.py]              module [Avionics]
      - [modules/simulation/drag.py]   module [Drag]

    followed by the properties established about them.

    Modelling conventions.

    - Python [float] and [int] values of the drag model are idealised as real
      numbers ([R]): rounding, overflow, infinities and NaN are outside the
      model.  In particular the [OverflowError] of a float power whose result
      leaves the range of floats is not modelled; properties that depend on
      its absence bound their arguments to a range where no operation
      overflows.  Python's dynamic promotion of a negative float raised to a
      fractional power to [complex] is kept, as are the exceptions raised by
      division, powers of zero, [math.log10] and comparison of complex
      numbers.  The constructor computes on literals only; the one partial
      operation it applies, [math.asin], receives an argument inside its
      domain ([init_asin_domain]).
    - A cell of the reference CSV is a float as [pandas] reads it: a
      rational number ([Q], which keeps the filter executable), an infinity,
      or NaN for a blank cell, compared as floats are.
    - A method of [Rocket] is a state-passing computation on the instance, so
      that assignments to [self] would be visible in its result. *)

From Stdlib Require Import Reals Lra Lia Psatz ZArith QArith List Bool String.
Import ListNotations.

(* ================================================================= *)
(** * Part I: the programs *)
(* ================================================================= *)

(* ----------------------------------------------------------------- *)
(** ** modules/Config.py *)

Module Config.

(** The values stored by the module: Python booleans, ints and floats. *)
Inductive pyconst : Set :=
| PyBool (b : bool)
| PyInt (z : Z)
| PyFloat (q : Q).

(** Module-level constants. *)
Definition DEBUG : pyconst := PyBool false.
Definition PARACHUTE_CHARGE_TIME : pyconst := PyFloat 0.5.
Definition APOGEE_DELAY : pyconst := PyInt 0.
Definition MAIN_ALTITUDE : pyconst := PyInt 1000.
Definition MAIN_DELAY : pyconst := PyInt 0.

(** Attributes of a [Config] instance. *)
Record Config : Set := mkConfig {
  self_DEBUG : pyconst;
  self_Test : pyconst;
  self_PARACHUTE_CHARGE_TIME : pyconst;
  self_APOGEE_DELAY : pyconst;
  self_MAIN_ALTITUDE : pyconst;
  self_MAIN_DELAY : pyconst
}.

(** [Config.__init__]: every attribute is assigned a literal. *)
Definition __init__ : Config :=
  {| self_DEBUG := PyBool true;
     self_Test := PyBool false;
     self_PARACHUTE_CHARGE_TIME := PyFloat 0.5;
     self_APOGEE_DELAY := PyInt 0;
     self_MAIN_ALTITUDE := PyInt 1000;
     self_MAIN_DELAY := PyInt 0 |}.

(** The five names shared by the module and the instance. *)
Inductive name : Set :=
| N_DEBUG | N_PARACHUTE_CHARGE_TIME | N_APOGEE_DELAY | N_MAIN_ALTITUDE | N_MAIN_DELAY.

Definition module_default (n : name) : pyconst :=
  match n with
  | N_DEBUG => DEBUG
  | N_PARACHUTE_CHARGE_TIME => PARACHUTE_CHARGE_TIME
  | N_APOGEE_DELAY => APOGEE_DELAY
  | N_MAIN_ALTITUDE => MAIN_ALTITUDE
  | N_MAIN_DELAY => MAIN_DELAY
  end.

Definition instance_default (n : name) : pyconst :=
  match n with
  | N_DEBUG => self_DEBUG __init__
  | N_PARACHUTE_CHARGE_TIME => self_PARACHUTE_CHARGE_TIME __init__
  | N_APOGEE_DELAY => self_APOGEE_DELAY __init__
  | N_MAIN_ALTITUDE => self_MAIN_ALTITUDE __init__
  | N_MAIN_DELAY => self_MAIN_DELAY __init__
  end.

End Config.

(* ----------------------------------------------------------------- *)
(** ** src/Avionics.py *)

Module Avionics.

(** The attributes of [self.conf] that [main_process] reads or writes.  The
    class behind it ([Config.Config(path, state)] of the [src] package) is not
    part of the sources; only these attributes are used. *)
Record Conf : Set := mkConf {
  shutdown : bool;
  FIDI : bool;
  DEBUG : bool;
  SIM : bool;
  state : string;
  last_state : string
}.

Definition set_state (s : string) (c : Conf) : Conf :=
  {| shutdown := shutdown c; FIDI := FIDI c; DEBUG := DEBUG c; SIM := SIM c;
     state := s; last_state := last_state c |}.

Section MainProcess.

(** Everything else the loop touches: the data recorder, the state machine's
    internals and the console.  [State.act], [State.activate_hook], [print]
    and [input] are taken as given; each may change the whole world,
    [self.conf] included. *)
Variable Env : Type.

Record World : Type := mkWorld { conf : Conf; env : Env }.

Variable act : World -> World.
Variable activate_hook : string -> World -> World.
Variable print_debug : World -> World.
Variable input : string -> World -> World.

(** The guard of [while (not self.conf.shutdown) or (self.conf.FIDI)]. *)
Definition loop_guard (c : Conf) : bool := negb (shutdown c) || FIDI c.

Definition when (b : bool) (f : World -> World) (w : World) : World :=
  if b then f w else w.

(** The simulation-mode block of one iteration. *)
Definition sim_block (w : World) : World :=
  let w :=
    when (String.eqb (state (conf w)) "IDLE")
      (fun w => activate_hook "arm_start"
                  {| conf := set_state "ARM" (conf w); env := env w |}) w in
  let w :=
    when (negb (String.eqb (last_state (conf w)) (state (conf w))))
      (fun w => input ("STATE CHANGE: " ++ state (conf w)) w) w in
  when (if in_dec string_dec (state (conf w)) ["APOGEE"%string] then true else false)
    (input "PAUSE BUFFER") w.

(** The body of the [while] loop. *)
Definition loop_body (w : World) : World :=
  let w := when (DEBUG (conf w)) print_debug w in
  let w := when (SIM (conf w)) sim_block w in
  act w.

(** One evaluation of the guard: [Some w'] when another iteration runs and
    leads to [w'], [None] when the loop is left. *)
Definition loop_step (w : World) : option World :=
  if loop_guard (conf w) then Some (loop_body w) else None.

(** [main_process] with a bound on the number of guard evaluations: [Some w]
    when the loop is left in world [w], [None] when the bound is reached
    with the loop still running. *)
Fixpoint main_process (fuel : nat) (w : World) : option World :=
  match fuel with
  | O => None
  | S fuel' =>
      match loop_step w with
      | Some w' => main_process fuel' w'
      | None => Some w
      end
  end.

(** The world after [k] iterations of the body. *)
Fixpoint iterations (k : nat) (w : World) : World :=
  match k with
  | O => w
  | S k' => iterations k' (loop_body w)
  end.

End MainProcess.

Arguments mkWorld {Env} _ _.
Arguments conf {Env} _.
Arguments env {Env} _.

End Avionics.

(* ----------------------------------------------------------------- *)
(** ** Python numbers, as the drag model uses them *)

Local Open Scope R_scope.

(** The exceptions arithmetic can raise on real numbers.  [OverflowError],
    which a float power raises when its result is too large for a float, has
    no counterpart on real numbers. *)
Inductive PyErr : Set := ZeroDivisionError | ValueError | TypeError.

(** The value of a numeric expression: a real number (Python [int] or
    [float]), a complex number, or the exception raised while evaluating it. *)
Inductive val : Type :=
| Real (x : R)
| Complex (re im : R)
| Raise (e : PyErr).

Coercion Real : R >-> val.

Definition cplx : Type := (R * R)%type.

(** A binary operator: the left operand is evaluated first, an exception in
    an operand is the exception of the expression, and a real operand meeting
    a complex one is promoted to [x + 0j]. *)
Definition arith (fr : R -> R -> val) (fc : cplx -> cplx -> val) (u v : val) : val :=
  match u, v with
  | Raise e, _ => Raise e
  | _, Raise e => Raise e
  | Real x, Real y => fr x y
  | Real x, Complex c d => fc (x, 0) (c, d)
  | Complex a b, Real y => fc (a, b) (y, 0)
  | Complex a b, Complex c d => fc (a, b) (c, d)
  end.

Definition c_sum (a b : cplx) : val := Complex (fst a + fst b) (snd a + snd b).
Definition c_diff (a b : cplx) : val := Complex (fst a - fst b) (snd a - snd b).
Definition c_prod (a b : cplx) : val :=
  Complex (fst a * fst b - snd a * snd b) (fst a * snd b + snd a * fst b).

Definition is_zero (a : cplx) : bool :=
  if Req_dec_T (fst a) 0 then (if Req_dec_T (snd a) 0 then true else false)
  else false.

(** Complex division raises on a zero divisor. *)
Definition c_quot (a b : cplx) : val :=
  if is_zero b then Raise ZeroDivisionError
  else Complex ((fst a * fst b + snd a * snd b) / (fst b * fst b + snd b * snd b))
               ((snd a * fst b - fst a * snd b) / (fst b * fst b + snd b * snd b)).

Definition hypot (x y : R) : R := sqrt (x * x + y * y).

(** The angle of the point [(x, y)], in [(-PI, PI]]. *)
Definition atan2 (y x : R) : R :=
  if Rlt_dec 0 x then atan (y / x)
  else if Rlt_dec x 0 then
    (if Rle_dec 0 y then atan (y / x) + PI else atan (y / x) - PI)
  else if Rlt_dec 0 y then PI / 2
  else if Rlt_dec y 0 then - (PI / 2)
  else 0.

(** Complex power [a ** b], in polar form: anything to the power zero is
    one, zero to a negative or complex power raises. *)
Definition c_pow (a b : cplx) : val :=
  if is_zero b then Complex 1 0
  else if is_zero a then
    (if Req_dec_T (snd b) 0 then
       (if Rlt_dec (fst b) 0 then Raise ZeroDivisionError else Complex 0 0)
     else Raise ZeroDivisionError)
  else
    let vabs := hypot (fst a) (snd a) in
    let len := Rpower vabs (fst b) in
    let at_ := atan2 (snd a) (fst a) in
    let phase := at_ * fst b in
    if Req_dec_T (snd b) 0 then Complex (len * cos phase) (len * sin phase)
    else
      let len := len / exp (at_ * snd b) in
      let phase := phase + snd b * ln vabs in
      Complex (len * cos phase) (len * sin phase).

(** Float power [x ** y]: [x ** 0] is one, zero to a negative power raises,
    a negative base with a fractional exponent is handed to the complex
    power. *)
Definition float_pow (x y : R) : val :=
  if Req_dec_T y 0 then Real 1
  else if Req_dec_T x 0 then
    (if Rlt_dec y 0 then Raise ZeroDivisionError else Real 0)
  else if Rlt_dec x 0 then
    (if Req_dec_T (IZR (Int_part y)) y then Real (powerRZ x (Int_part y))
     else c_pow (x, 0) (y, 0))
  else Real (Rpower x y).

Definition float_div (x y : R) : val :=
  if Req_dec_T y 0 then Raise ZeroDivisionError else Real (x / y).

Definition py_add : val -> val -> val := arith (fun x y => Real (x + y)) c_sum.
Definition py_sub : val -> val -> val := arith (fun x y => Real (x - y)) c_diff.
Definition py_mul : val -> val -> val := arith (fun x y => Real (x * y)) c_prod.
Definition py_div : val -> val -> val := arith float_div c_quot.
Definition py_pow : val -> val -> val := arith float_pow c_pow.

(** The outcome of a comparison: a truth value, or the exception raised. *)
Definition cond : Type := (PyErr + bool)%type.

(** Ordering is defined on real numbers only. *)
Definition compare_with (test : R -> R -> bool) (u v : val) : cond :=
  match u, v with
  | Raise e, _ => inl e
  | _, Raise e => inl e
  | Real x, Real y => inr (test x y)
  | _, _ => inl TypeError
  end.

Definition py_lt : val -> val -> cond :=
  compare_with (fun x y => if Rlt_dec x y then true else false).
Definition py_le : val -> val -> cond :=
  compare_with (fun x y => if Rle_dec x y then true else false).
Definition py_gt : val -> val -> cond :=
  compare_with (fun x y => if Rgt_dec x y then true else false).
Definition py_ge : val -> val -> cond :=
  compare_with (fun x y => if Rge_dec x y then true else false).

(** A conditional whose arms are expressions. *)
Definition py_if (c : cond) (u v : val) : val :=
  match c with
  | inl e => Raise e
  | inr true => u
  | inr false => v
  end.

(** [math.log10] and [math.atan] accept real numbers only; the logarithm of
    a number that is not positive is a [ValueError]. *)
Definition log10 (v : val) : val :=
  match v with
  | Real x => if Rlt_dec 0 x then Real (ln x / ln 10) else Raise ValueError
  | Complex _ _ => Raise TypeError
  | Raise e => Raise e
  end.

Definition py_atan (v : val) : val :=
  match v with
  | Real x => Real (atan x)
  | Complex _ _ => Raise TypeError
  | Raise e => Raise e
  end.

(** The attribute [.real]. *)
Definition real (v : val) : val :=
  match v with
  | Real x => Real x
  | Complex re _ => Real re
  | Raise e => Raise e
  end.

(** The first exception among the values interpolated by a [print], if any;
    what is written to the console is not modelled. *)
Fixpoint print (args : list val) : option PyErr :=
  match args with
  | [] => None
  | Raise e :: _ => Some e
  | _ :: rest => print rest
  end.

Declare Scope py_scope.
Delimit Scope py_scope with py.
Bind Scope py_scope with val.

Notation "x + y" := (py_add x y) : py_scope.
Notation "x - y" := (py_sub x y) : py_scope.
Notation "x * y" := (py_mul x y) : py_scope.
Notation "x / y" := (py_div x y) : py_scope.
Notation "x ** y" := (py_pow x y) (at level 30, right associativity) : py_scope.
Notation "x < y" := (py_lt x y) : py_scope.
Notation "x <= y" := (py_le x y) : py_scope.
Notation "x > y" := (py_gt x y) : py_scope.
Notation "x >= y" := (py_ge x y) : py_scope.

(* ----------------------------------------------------------------- *)
(** ** modules/simulation/drag.py *)

Module Drag.

(** The attributes of a [Rocket] instance, in the order [__init__] assigns
    them. *)
Record Rocket : Type := mkRocket {
  verbose : bool;
  nose_cone_length : R;
  body_tube_length : R;
  length : R;
  radius : R;
  boat_tail_radius : R;
  diameter : R;
  velocity : R;
  M : R;
  K : R;
  number_of_fins : R;
  fin_length : R;
  fin_height_long : R;
  fin_height_short : R;
  fin_thickness : R;
  fin_lambda : R;
  x : R;
  K_f : R;
  S_B : R
}.

(** The factor between airspeed and Mach number. *)
Definition mach_per_fps : R := 0.0008957066031914082.

(** The local [a] of [__init__], from the radius and the nose cone length. *)
Definition init_a (radius nose_cone_length : R) : R :=
  (radius ^ 2 + nose_cone_length ^ 2) / (2 * radius).

(** [Rocket.__init__(self, verbose=False, mach=0)]; an omitted keyword
    argument is [None] and takes its default.  All operands are literals
    except [mach], and every divisor is a non-zero literal, so the attributes
    are computed on real numbers directly. *)
Definition __init__ (verbose : option bool) (mach : option R) : Rocket :=
  let verbose := match verbose with Some b => b | None => false end in
  let mach := match mach with Some m => m | None => 0 end in
  let nose_cone_length := 1.333 in
  let body_tube_length := 5.333 in
  let radius := 0.1666 in
  let velocity_M :=
    if Req_dec_T mach 0
    then (143.4, 143.4 * mach_per_fps)
    else (mach / mach_per_fps, mach) in
  let fin_length := 0.333 in
  let fin_height_long := 1 in
  let fin_height_short := 0.333 in
  let a := init_a radius nose_cone_length in
  {| verbose := verbose;
     nose_cone_length := nose_cone_length;
     body_tube_length := body_tube_length;
     length := nose_cone_length + body_tube_length;
     radius := radius;
     boat_tail_radius := 0.1666;
     diameter := 2 * radius;
     velocity := fst velocity_M;
     M := snd velocity_M;
     K := 0.0004;
     number_of_fins := 4;
     fin_length := fin_length;
     fin_height_long := fin_height_long;
     fin_height_short := fin_height_short;
     fin_thickness := 0.0833;
     fin_lambda := fin_height_short / fin_height_long;
     x := fin_length / 8;
     K_f := 1.04;
     S_B := 2 * PI * ((radius - a) * asin (nose_cone_length / a) + nose_cone_length) |}.

(** *** Methods

    A method is a computation on the instance: it receives [self] and returns
    its result together with the instance as the call leaves it. *)

Definition Exec (A : Type) : Type := Rocket -> A * Rocket.

Definition ret {A : Type} (a : A) : Exec A := fun self => (a, self).

Definition bind {A B : Type} (m : Exec A) (k : A -> Exec B) : Exec B :=
  fun self => let (a, self') := m self in k a self'.

(** Reading [self]. *)
Definition this : Exec Rocket := fun self => (self, self).

(** Assigning an attribute: [self] is replaced as a whole. *)
Definition assign (f : Rocket -> Rocket) : Exec unit := fun self => (tt, f self).

(** A conditional whose arms are statements. *)
Definition branch (c : cond) (t e : Exec val) : Exec val :=
  match c with
  | inl err => ret (Raise err)
  | inr true => t
  | inr false => e
  end.

(** A statement that may raise, followed by the rest of the method. *)
Definition after (stmt : option PyErr) (rest : val) : val :=
  match stmt with
  | Some e => Raise e
  | None => rest
  end.

(** An assignment [name = value] followed by the rest of the method: an
    exception in the assigned expression leaves the method at once. *)
Definition assigned (value rest : val) : val :=
  match value with
  | Raise e => Raise e
  | _ => rest
  end.

Declare Scope exec_scope.
Delimit Scope exec_scope with exec.
Bind Scope exec_scope with Exec.

Notation "x <- m ;; k" := (bind m (fun x => k))
  (at level 61, m at next level, right associativity) : exec_scope.

Local Open Scope py_scope.
Local Open Scope exec_scope.

Definition a (h : R) : Exec val :=
  ret (py_if (h <= 37000) (-0.004 * h + 1116.45)
      (py_if (h <= 64000) 968.08
         (0.0007 * h + 924.99))).

(** The power [e**(a*h + b)] is the power of real numbers; on floats it
    raises [OverflowError] once the exponent exceeds about 709.78, which is
    from about 1.52e7 ft. *)
Definition v (h : R) : Exec val :=
  let c1 := h <= 15000 in
  let c2 := h <= 30000 in
  let a := py_if c1 0.00002503 (py_if c2 0.00002760 0.00004664) in
  let b := py_if c1 0 (py_if c2 (-0.03417) (-0.6882)) in
  ret (0.000157 * exp 1 ** (a * h + b)).

Definition Rn_star (h : R) : Exec val :=
  self <- this ;;
  a_h <- a h ;;
  ret ((a_h *
        self.(M) * (
          self.(body_tube_length) +
          self.(nose_cone_length)
        ) / (
          12 * self.(velocity)
        )
       ) * (
         1 +
         0.0283 * self.(M) -
         0.043 * self.(M) * 2 +
         0.2107 * self.(M) ** 3 -
         0.03829 * self.(M) ** 4 +
         0.002709 * self.(M) ** 5
       )).

Definition C_f_star (h : R) : Exec val :=
  rn <- Rn_star h ;;
  ret (0.037036 * (rn ** (-0.155079))).

Definition C_f (h : R) : Exec val :=
  self <- this ;;
  cfs <- C_f_star h ;;
  ret (cfs * (
         1 +
         0.00798 * self.(M) -
         0.1813 * self.(M) ** 2 +
         0.0632 * self.(M) ** 3 -
         0.00933 * self.(M) ** 4 +
         0.000549 * self.(M) ** 5
       )).

Definition C_f_term_star : Exec val :=
  self <- this ;;
  ret (1 / (
         1.89 +
         1.62 * log10 (
           (self.(body_tube_length) + self.(nose_cone_length))
           / self.(K)
         )
       ) ** 2.5).

Definition C_f_term : Exec val :=
  self <- this ;;
  cts <- C_f_term_star ;;
  ret (cts / (1 + 0.2044 * (self.(M) ** 2))).

Definition C_f_final (h : R) : Exec val :=
  cf <- C_f h ;;
  ct <- C_f_term ;;
  branch (cf >= ct) (C_f h) C_f_term.

Definition body_friction_drag (h : R) : Exec val :=
  self <- this ;;
  cff <- C_f_final h ;;
  ret (cff * (
         1 + (
           60 / ((
             self.(body_tube_length) + self.(nose_cone_length)) /
             self.(diameter)
           ) ** 3) +
         0.0025 * (
           self.(body_tube_length) / self.(diameter)
         )
       ) * (
         (4 * self.(S_B)) / (PI * (self.(diameter) ** 2))
       )).

Definition R_n (h : R) : Exec val :=
  self <- this ;;
  a_h <- a h ;;
  ret (a_h * self.(M) * self.(fin_height_long) /
       (12 * self.(velocity))).

(** The calls of [R_n] are bound in the order Python evaluates them. *)
Definition C_f_lambda (h : R) : Exec val :=
  self <- this ;;
  let l : val := self.(fin_height_short) / self.(fin_height_long) in
  cff <- C_f_final h ;;
  rn1 <- R_n h ;;
  rn2 <- R_n h ;;
  rn3 <- R_n h ;;
  rn4 <- R_n h ;;
  rn5 <- R_n h ;;
  let val_ :=
    cff * (
      log10 rn1 ** 2.6 / (
        (l ** 2) - 1)
    ) * (
      (l ** 2 / (
         log10 (rn2 * l)
       ) ** 2.6) -
      1 / (log10 rn3) ** 2.6 +
      0.5646 * (
        (
          (l ** 2) / (log10 (rn4 * l)) ** 3.6
        ) - (
          1 / (log10 rn5) ** 3.6)
      )
    ) in
  ret (assigned l (real val_)).

Definition fin_friction_drag (h : R) : Exec val :=
  self <- this ;;
  cfl <- C_f_lambda h ;;
  ret (cfl * (
         1 +
         60 * (
           self.(fin_thickness) / self.(fin_height_long)
         ) ** 4 +
         0.8 * (
           1 + 5 * (
             (self.(x) / self.(fin_height_long)) ** 2
           )
         ) * (
           self.(fin_thickness) / self.(fin_height_long)
         ) * (
           4 *
           self.(number_of_fins) * (
             self.(fin_length) / (
               self.(fin_height_long) +
               self.(fin_height_short)
             )
           ) / (
             PI * self.(diameter) ** 2
           )
         )
       )).

Definition protuberance_friction_drag : Exec val := ret (Real 0).

Definition excrescencies_friction_drag : Exec val :=
  self <- this ;;
  let k :=
    py_if (self.(M) < 0.78)
      0.00038
      (py_if (self.(M) <= 1.04)
         (-0.4501 * self.(M) ** 4 +
          1.5954 * self.(M) ** 3 -
          2.1062 * self.(M) ** 2 +
          1.2288 * self.(M) -
          0.26717)
         (0.0002 * self.(M) ** 2 -
          0.0012 * self.(M) +
          0.0018)) in
  ret (k * 4 * self.(S_B) / (PI * (2 * self.(radius)) ** 2)).

Definition skin_friction_drag (h : R) : Exec val :=
  self <- this ;;
  shown <-
    (if self.(verbose)
     then
       b <- body_friction_drag h ;;
       f <- fin_friction_drag h ;;
       p <- protuberance_friction_drag ;;
       ret (print [b; f; p])
     else ret None) ;;
  bfd <- body_friction_drag h ;;
  ffd <- fin_friction_drag h ;;
  pfd <- protuberance_friction_drag ;;
  efd <- excrescencies_friction_drag ;;
  ret (after shown (
         bfd +
         self.(K_f) * ffd +
         self.(K_f) * pfd +
         efd)).

Definition n : Exec val :=
  self <- this ;;
  ret (3.6542 *
       (self.(body_tube_length) / self.(diameter)) ** (-0.2733)).

Definition K_b : Exec val :=
  self <- this ;;
  ret (0.0274 *
       py_atan (
         (self.(body_tube_length) / self.(diameter)) +
         0.0116
       )).

(** [b_d *= m] in a branch is the product [b_d * m] returned from it. *)
Definition base_drag (h : R) : Exec val :=
  self <- this ;;
  kb <- K_b ;;
  n_ <- n ;;
  sfd <- skin_friction_drag h ;;
  let b_d :=
    kb * (
      (self.(boat_tail_radius) / self.(radius)) ** n_ /
      sfd ** (1 / 2)
    ) in
  ret (py_if (self.(M) > 0.6)
         (py_if (self.(M) < 1)
            (b_d * (1 + 215.8 * (self.(M) - 0.6) ** 6))
            (py_if (self.(M) < 2)
               (b_d * (
                  2.0881 * (
                    (self.(M) - 1) ** 3
                  ) - 3.7938 * (
                    (self.(M) - 1) ** 2
                  ) +
                  1.4618 * (self.(M) - 1) +
                  1.883917
                ))
               (b_d * (0.297 * (self.(M) - 2) ** 3 -
                       0.7937 * (self.(M) - 2) ** 2 -
                       0.1115 * (self.(M) - 2) +
                       1.64006
                ))))
         b_d).

Definition M_d : Exec val :=
  self <- this ;;
  ret (-0.0156 * (self.(nose_cone_length) / (2 * self.(radius))) ** 2 +
       0.136 * (self.(nose_cone_length) / (2 * self.(radius))) +
       0.6817).

Definition M_f : Exec val :=
  self <- this ;;
  let le : val := self.(nose_cone_length) + self.(body_tube_length) in
  let d : val := 2 * self.(radius) in
  let ln_le : val := self.(nose_cone_length) / le in
  let c := ln_le < 0.2 in
  let a :=
    py_if c 2.4
      (-321.94 * (ln_le ** 2) +
       264.07 * ln_le -
       36.348) in
  let b :=
    py_if c (-1.05)
      (19.634 * ln_le ** 2 -
       18.369 * ln_le +
       1.7434) in
  ret (a * (le / d) ** b + 1.0275).

Definition C_d_max : Exec val :=
  self <- this ;;
  let le : val := self.(nose_cone_length) + self.(body_tube_length) in
  let ln_lb : val := self.(nose_cone_length) / self.(body_tube_length) in
  let d : val := 2 * self.(radius) in
  let c := 50.676 * ln_lb ** 2 - 51.734 * ln_lb + 15.642 in
  let g := -2.2538 * ln_lb ** 2 + 1.3108 * ln_lb - 1.7344 in
  ret (assigned ln_lb
         (py_if ((le / d) > 6)
            (c * (le / d) ** g)
            (c * 6 ** g))).

Definition transonic_wave_drag : Exec val :=
  self <- this ;;
  md <- M_d ;;
  branch (md <= self.(M))
    (mf <- M_f ;;
     branch (self.(M) <= mf) C_d_max (ret (Real 0)))
    (ret (Real 0)).

Definition supersonic_wave_drag : Exec val := ret (Real 0).

Definition drag_coefficient (h : R) : Exec val :=
  self <- this ;;
  shown <-
    (if self.(verbose) || true
     then
       s <- skin_friction_drag h ;;
       b <- base_drag h ;;
       t <- transonic_wave_drag ;;
       w <- supersonic_wave_drag ;;
       ret (print [s; b; t; w])
     else ret None) ;;
  sfd <- skin_friction_drag h ;;
  bd <- base_drag h ;;
  twd <- transonic_wave_drag ;;
  swd <- supersonic_wave_drag ;;
  let C_d := sfd + bd + twd + swd in
  ret (after shown C_d).

End Drag.

(* ----------------------------------------------------------------- *)
(** ** The driver of drag.py ([__main__]) *)

Module Driver.

Import Drag.

Definition height : R := 500.

(** [machs = [mach*.01 for mach in range(0, 100)]] *)
Definition machs : list R :=
  map (fun mach : nat => INR mach * 0.01) (seq 0 100).

(** The sweep: one [Rocket] per Mach number, whose drag coefficient is
    appended to [drags].  An exception in an iteration would end the
    program there; it shows as a [Raise] in the list. *)
Definition drags : list val :=
  fold_left
    (fun drags emach =>
       let r := __init__ (Some false) (Some emach) in
       drags ++ [fst (drag_coefficient height r)])
    machs [].

(** A cell of a numeric column of [prometheus.csv] as [pd.read_csv] gives
    it: a float, which is a number, an infinity, or NaN.  A blank cell is
    read as NaN.  The numbers of a CSV file are decimal fractions, and every
    float is a fraction: rationals.  A column that holds text is not numeric
    (its comparison with a number is a [TypeError]) and is outside the
    model. *)
Inductive Cell : Set :=
| Num (q : Q)
| PosInf
| NegInf
| NaN.

(** A row of [prometheus.csv].  The table is taken to have the three
    columns the loop reads; without one of them the first lookup raises
    [KeyError]. *)
Record Row : Set := mkRow {
  Mach_Number : Cell;
  Altitude_ft : Cell;
  CD : Cell
}.

(** The variables of the filter loop. *)
Record Filter : Set := mkFilter {
  machs2 : list Cell;
  drags2 : list Cell;
  last_height : Cell;
  last_mach : Cell
}.

Definition filter_init : Filter :=
  {| machs2 := []; drags2 := [];
     last_height := Num (-5); last_mach := Num (-100) |}.

(** [p > q] on numbers. *)
Definition Qgtb (p q : Q) : bool := negb (Qle_bool p q).

(** [x > y] on floats: false as soon as an operand is NaN. *)
Definition cell_gtb (x y : Cell) : bool :=
  match x, y with
  | NaN, _ => false
  | _, NaN => false
  | Num p, Num q => Qgtb p q
  | Num _, PosInf => false
  | Num _, NegInf => true
  | PosInf, PosInf => false
  | PosInf, _ => true
  | NegInf, _ => false
  end.

(** The body of [for i in range(len(p))]; [p[...][i]] is the [i]-th row.  A
    missing row would be a [KeyError], which ends the loop: [None]. *)
Definition filter_body (p : list Row) (st : option Filter) (i : nat) : option Filter :=
  match st with
  | None => None
  | Some f =>
      match nth_error p i with
      | None => None
      | Some row =>
          if cell_gtb (last_mach f) (Mach_Number row) then Some f
          else Some {| machs2 := machs2 f ++ [Mach_Number row];
                       drags2 := drags2 f ++ [CD row];
                       last_height := Altitude_ft row;
                       last_mach := Mach_Number row |}
      end
  end.

Definition filter_loop (p : list Row) : option Filter :=
  fold_left (filter_body p) (seq 0 (List.length p)) (Some filter_init).

(** [d = Rocket(verbose=False)], built before the sweep, and
    [r_C_d = d.drag_coefficient(h=height)], the value printed last. *)
Definition d : Rocket := __init__ (Some false) None.
Definition r_C_d : val := fst (drag_coefficient height d).

End Driver.

(* ================================================================= *)
(** * Part II: notions used to state the properties *)
(* ================================================================= *)

Module Spec.

Import Drag Driver.

(** *** The reference-data filter *)

(** The rows a pass over [rows] retains when [last] is the Mach number
    retained last: a row is skipped when [last] exceeds its Mach number, and
    retained otherwise. *)
Fixpoint retained_from (last : Cell) (rows : list Row) : list Row :=
  match rows with
  | [] => []
  | row :: rest =>
      if cell_gtb last (Mach_Number row)
      then retained_from last rest
      else row :: retained_from (Mach_Number row) rest
  end.

(** [x <= y] on floats: false as soon as an operand is NaN. *)
Definition cell_leb (x y : Cell) : bool :=
  match x, y with
  | NaN, _ => false
  | _, NaN => false
  | Num p, Num q => Qle_bool p q
  | NegInf, _ => true
  | _, PosInf => true
  | _, _ => false
  end.

(** A missing cell, and a column without one. *)
Definition missing (c : Cell) : bool :=
  match c with
  | NaN => true
  | _ => false
  end.

Definition complete (l : list Cell) : bool :=
  forallb (fun c => negb (missing c)) l.

(** Each element exceeds the one before it, the first exceeding [last]. *)
Fixpoint increasing_from (last : Cell) (l : list Cell) : bool :=
  match l with
  | [] => true
  | m :: rest => cell_gtb m last && increasing_from m rest
  end.

Definition strictly_increasing (l : list Cell) : bool :=
  match l with
  | [] => true
  | m :: rest => increasing_from m rest
  end.

(** No element is below the one before it, the first not below [last]. *)
Fixpoint nondecreasing_from (last : Cell) (l : list Cell) : bool :=
  match l with
  | [] => true
  | m :: rest => cell_leb last m && nondecreasing_from m rest
  end.

Definition nondecreasing (l : list Cell) : bool :=
  match l with
  | [] => true
  | m :: rest => nondecreasing_from m rest
  end.

(** No element is exceeded by the one before it, the first not by [last]:
    what the test of the filter asks of the rows it retains.  It is weaker
    than [nondecreasing_from]: NaN neither exceeds a float nor is exceeded
    by one. *)
Fixpoint unexceeded_from (last : Cell) (l : list Cell) : bool :=
  match l with
  | [] => true
  | m :: rest => negb (cell_gtb last m) && unexceeded_from m rest
  end.

Definition row_of_cell (m : Cell) : Row :=
  {| Mach_Number := m; Altitude_ft := Num 0; CD := Num 0 |}.

Definition row_of_mach (m : Q) : Row := row_of_cell (Num m).

(** The Mach column of the specification's example. *)
Definition example_rows : list Row :=
  map row_of_mach [0.1; 0.3; 0.2; 0.5]%Q.

(** A trace with a repeated Mach number. *)
Definition repeated_rows : list Row :=
  map row_of_mach [0.1; 0.1]%Q.

(** A trace with a blank Mach cell, followed by a smaller Mach number. *)
Definition blank_rows : list Row :=
  [row_of_mach 0.5; row_of_cell NaN; row_of_mach 0.2].

(** *** The drag model *)

(** A computation that leaves the instance as it found it. *)
Definition readonly {A : Type} (m : Exec A) : Prop :=
  forall self : Rocket, snd (m self) = self.

(** The value a method returns on an instance. *)
Definition value {A : Type} (m : Exec A) (self : Rocket) : A := fst (m self).

(** The real number a result stands for; zero for a complex result or an
    exception. *)
Definition to_R (u : val) : R :=
  match u with
  | Real x => x
  | _ => 0
  end.

(** A result that is a non-negative real number: neither an exception nor a
    complex number. *)
Definition nonneg_real (u : val) : Prop :=
  exists x : R, u = Real x /\ 0 <= x.

(** The three segments of the speed of sound. *)
Definition a_low (h : R) : R := -0.004 * h + 1116.45.
Definition a_mid : R := 968.08.
Definition a_high (h : R) : R := 0.0007 * h + 924.99.

Definition speed_of_sound (h : R) : R :=
  if Rle_dec h 37000 then a_low h
  else if Rle_dec h 64000 then a_mid
  else a_high h.

Definition continuous_at (f : R -> R) (x0 : R) : Prop :=
  forall eps : R, 0 < eps ->
    exists delta : R, 0 < delta /\
      forall x : R, Rabs (x - x0) < delta -> Rabs (f x - f x0) < eps.

(** A jump of at least [eps] at [x0]: arbitrarily close to [x0] the function
    is at least [eps] away from its value there. *)
Definition jumps_at (f : R -> R) (x0 eps : R) : Prop :=
  0 < eps /\
  forall delta : R, 0 < delta ->
    exists x : R, Rabs (x - x0) < delta /\ eps <= Rabs (f x - f x0).

(** The speed of sound an instance computes, as a function of the altitude. *)
Definition a_of (self : Rocket) (h : R) : R := to_R (value (a h) self).

(** The polynomial factor of [Rn_star] with its second term read as the
    product of the Mach number and two, and with that term squared. *)
Definition Rn_factor (M : R) : R :=
  1 + 0.0283 * M - 0.043 * (M * 2) + 0.2107 * M ^ 3 - 0.03829 * M ^ 4
    + 0.002709 * M ^ 5.

Definition Rn_factor_squared (M : R) : R :=
  1 + 0.0283 * M - 0.043 * M ^ 2 + 0.2107 * M ^ 3 - 0.03829 * M ^ 4
    + 0.002709 * M ^ 5.

(** [Rn_star] as the specification words it. *)
Definition Rn_star_spec (factor : R -> R) (h : R) (self : Rocket) : val :=
  py_mul
    (py_div (Real (speed_of_sound h * M self *
                   (body_tube_length self + nose_cone_length self)))
            (Real (12 * velocity self)))
    (Real (factor (M self))).

(** The Mach-regime multiplier of the base drag; [None] where no multiplier
    is applied. *)
Definition regime_multiplier (M : R) : option R :=
  if Rle_dec M 0.6 then None
  else if Rlt_dec M 1 then Some (1 + 215.8 * (M - 0.6) ^ 6)
  else if Rlt_dec M 2 then
    Some (2.0881 * (M - 1) ^ 3 - 3.7938 * (M - 1) ^ 2 + 1.4618 * (M - 1) + 1.883917)
  else
    Some (0.297 * (M - 2) ^ 3 - 0.7937 * (M - 2) ^ 2 - 0.1115 * (M - 2) + 1.64006).

(** The principal square root of a Python number. *)
Definition py_sqrt (u : val) : val :=
  match u with
  | Real x =>
      if Rle_dec 0 x then Real (sqrt x) else Complex 0 (sqrt (- x))
  | Complex re im =>
      Complex (sqrt (hypot re im) * cos (atan2 im re / 2))
              (sqrt (hypot re im) * sin (atan2 im re / 2))
  | Raise e => Raise e
  end.

(** [base_drag] as the specification words it. *)
Definition base_drag_spec (h : R) (self : Rocket) : val :=
  let L_b_over_d : val := py_div (Real (body_tube_length self)) (Real (diameter self)) in
  let n := py_mul (Real 3.6542) (py_pow L_b_over_d (Real (-0.2733))) in
  let K_b := py_mul (Real 0.0274) (py_atan (py_add L_b_over_d (Real 0.0116))) in
  let ratio := py_div (Real (boat_tail_radius self)) (Real (radius self)) in
  let unscaled :=
    py_mul K_b
      (py_div (py_pow ratio n) (py_sqrt (value (skin_friction_drag h) self))) in
  match regime_multiplier (M self) with
  | None => unscaled
  | Some m => py_mul unscaled (Real m)
  end.

(** The coefficient [k] of [excrescencies_friction_drag]. *)
Definition excrescence_k (M : R) : R :=
  if Rlt_dec M 0.78 then 0.00038
  else if Rle_dec M 1.04 then
    -0.4501 * M ^ 4 + 1.5954 * M ^ 3 - 2.1062 * M ^ 2 + 1.2288 * M - 0.26717
  else 0.0002 * M ^ 2 - 0.0012 * M + 0.0018.

(** The Reynolds number of the fin root chord, the value of [R_n]. *)
Definition fin_reynolds (h : R) (self : Rocket) : R :=
  speed_of_sound h * M self * 1 / (12 * velocity self).

(** The geometry [__init__] gives every instance. *)
Definition default_geometry (self : Rocket) : Prop :=
  nose_cone_length self = 1.333 /\
  body_tube_length self = 5.333 /\
  radius self = 0.1666 /\
  boat_tail_radius self = 0.1666 /\
  diameter self = 2 * 0.1666 /\
  K self = 0.0004 /\
  number_of_fins self = 4 /\
  fin_length self = 0.333 /\
  fin_height_long self = 1 /\
  fin_height_short self = 0.333 /\
  fin_thickness self = 0.0833 /\
  x self = 0.333 / 8 /\
  K_f self = 1.04.

(** The instance the sweep builds for its [i]-th Mach number. *)
Definition sweep_instance (i : nat) : Rocket :=
  __init__ (Some false) (Some (INR i * 0.01)).

(** *** Further notions *)


(** The kinematic viscosity, piece by piece. *)
Definition viscosity (h : R) : R :=
  if Rle_dec h 15000 then 0.000157 * exp (0.00002503 * h + 0)
  else if Rle_dec h 30000 then 0.000157 * exp (0.00002760 * h + -0.03417)
  else 0.000157 * exp (0.00004664 * h + -0.6882).

(** The drag-divergence Mach number [M_d] of the constructor's geometry. *)
Definition M_d_default : R :=
  -0.0156 * (1.333 / (2 * 0.1666)) ^ 2 + 0.136 * (1.333 / (2 * 0.1666)) + 0.6817.

(** The instance after [self.velocity = velocity]. *)
Definition set_velocity (velocity : R) (self : Rocket) : Rocket :=
  {| verbose := Drag.verbose self;
     nose_cone_length := nose_cone_length self;
     body_tube_length := body_tube_length self;
     length := Drag.length self;
     radius := radius self;
     boat_tail_radius := boat_tail_radius self;
     diameter := diameter self;
     velocity := velocity;
     M := M self;
     K := K self;
     number_of_fins := number_of_fins self;
     fin_length := fin_length self;
     fin_height_long := fin_height_long self;
     fin_height_short := fin_height_short self;
     fin_thickness := fin_thickness self;
     fin_lambda := fin_lambda self;
     x := x self;
     K_f := K_f self;
     S_B := S_B self |}.

(** The instance after [self.verbose = verbose]. *)
Definition set_verbose (verbose : bool) (self : Rocket) : Rocket :=
  {| verbose := verbose;
     nose_cone_length := nose_cone_length self;
     body_tube_length := body_tube_length self;
     length := Drag.length self;
     radius := radius self;
     boat_tail_radius := boat_tail_radius self;
     diameter := diameter self;
     velocity := velocity self;
     M := M self;
     K := K self;
     number_of_fins := number_of_fins self;
     fin_length := fin_length self;
     fin_height_long := fin_height_long self;
     fin_height_short := fin_height_short self;
     fin_thickness := fin_thickness self;
     fin_lambda := fin_lambda self;
     x := x self;
     K_f := K_f self;
     S_B := S_B self |}.

(** The expression [val] of [C_f_lambda], before [.real] is taken of it;
    [cff] stands for [C_f_final(h)], [rn] for each [R_n(h)] and [l] for the
    taper ratio. *)
Definition taper_value (cff rn l : val) : val :=
  py_mul
    (py_mul cff
       (py_div (py_pow (log10 rn) (Real 2.6))
               (py_sub (py_pow l (Real 2)) (Real 1))))
    (py_add
       (py_sub
          (py_div (py_pow l (Real 2))
                  (py_pow (log10 (py_mul rn l)) (Real 2.6)))
          (py_div (Real 1) (py_pow (log10 rn) (Real 2.6))))
       (py_mul (Real 0.5646)
          (py_sub
             (py_div (py_pow l (Real 2))
                     (py_pow (log10 (py_mul rn l)) (Real 3.6)))
             (py_div (Real 1) (py_pow (log10 rn) (Real 3.6)))))).

(** *** A run of the main loop

    A state machine that requests shutdown on its first call, run from a
    fresh configuration: the loop is left after one iteration. *)
Definition act_shutdown (w : Avionics.World unit) : Avionics.World unit :=
  let c := Avionics.conf w in
  Avionics.mkWorld
    {| Avionics.shutdown := true; Avionics.FIDI := Avionics.FIDI c;
       Avionics.DEBUG := Avionics.DEBUG c; Avionics.SIM := Avionics.SIM c;
       Avionics.state := Avionics.state c;
       Avionics.last_state := Avionics.last_state c |}
    (Avionics.env w).

Definition idle_world : Avionics.World unit :=
  Avionics.mkWorld
    {| Avionics.shutdown := false; Avionics.FIDI := false;
       Avionics.DEBUG := false; Avionics.SIM := false;
       Avionics.state := "IDLE"; Avionics.last_state := "IDLE" |}
    tt.

End Spec.

(* ================================================================= *)
(** * Part III: properties *)
(* ================================================================= *)

(* ----------------------------------------------------------------- *)
(** ** Configuration defaults *)

(** C6, as stated, fails: the constructor sets [DEBUG] to true, the module
    constant is false. *)
Lemma config_debug_defaults_differ :
  exists n : Config.name,
    Config.instance_default n = Config.PyBool true /\
    Config.module_default n = Config.PyBool false /\
    Config.instance_default n <> Config.module_default n.
Proof.
  exists Config.N_DEBUG. repeat split. discriminate.
Qed.

(** C6 (amended): the constructor's defaults of PARACHUTE_CHARGE_TIME (0.5),
    APOGEE_DELAY (0), MAIN_ALTITUDE (1000) and MAIN_DELAY (0) equal the
    module-level constants; DEBUG is false at module level and true in a
    constructed instance. *)
Theorem config_defaults :
  Config.instance_default Config.N_PARACHUTE_CHARGE_TIME
    = Config.module_default Config.N_PARACHUTE_CHARGE_TIME /\
  Config.instance_default Config.N_APOGEE_DELAY
    = Config.module_default Config.N_APOGEE_DELAY /\
  Config.instance_default Config.N_MAIN_ALTITUDE
    = Config.module_default Config.N_MAIN_ALTITUDE /\
  Config.instance_default Config.N_MAIN_DELAY
    = Config.module_default Config.N_MAIN_DELAY /\
  Config.module_default Config.N_PARACHUTE_CHARGE_TIME = Config.PyFloat 0.5 /\
  Config.module_default Config.N_APOGEE_DELAY = Config.PyInt 0 /\
  Config.module_default Config.N_MAIN_ALTITUDE = Config.PyInt 1000 /\
  Config.module_default Config.N_MAIN_DELAY = Config.PyInt 0 /\
  Config.module_default Config.N_DEBUG = Config.PyBool false /\
  Config.instance_default Config.N_DEBUG = Config.PyBool true.
Proof.
  repeat split.
Qed.

(* ----------------------------------------------------------------- *)
(** ** The avionics main loop *)

Section MainProcessFacts.

Import Avionics.

Variable Env : Type.
Variable act : World Env -> World Env.
Variable activate_hook : string -> World Env -> World Env.
Variable print_debug : World Env -> World Env.
Variable input : string -> World Env -> World Env.

Let body := loop_body Env act activate_hook print_debug input.
Let step := loop_step Env act activate_hook print_debug input.
Let run := main_process Env act activate_hook print_debug input.
Let after_iterations := iterations Env act activate_hook print_debug input.

Lemma loop_guard_iff (c : Conf) :
  loop_guard c = true <-> shutdown c = false \/ FIDI c = true.
Proof.
  unfold loop_guard. destruct (shutdown c), (FIDI c); simpl; intuition congruence.
Qed.

Lemma loop_guard_false_iff (c : Conf) :
  loop_guard c = false <-> shutdown c = true /\ FIDI c = false.
Proof.
  unfold loop_guard. destruct (shutdown c), (FIDI c); simpl; intuition congruence.
Qed.

Lemma step_running (w : World Env) :
  loop_guard (conf w) = true -> step w = Some (body w).
Proof.
  intros H. unfold step, loop_step. now rewrite H.
Qed.

Lemma step_leaving (w : World Env) :
  loop_guard (conf w) = false -> step w = None.
Proof.
  intros H. unfold step, loop_step. now rewrite H.
Qed.

Lemma iterations_succ (k : nat) (w : World Env) :
  after_iterations (S k) w = body (after_iterations k w).
Proof.
  revert w. induction k as [|k IH]; intros w; [reflexivity|].
  change (after_iterations (S (S k)) w) with (after_iterations (S k) (body w)).
  rewrite IH. reflexivity.
Qed.

(** The loop leaves at the first world whose guard is false. *)
Lemma run_leaves_at (k : nat) :
  forall (w : World Env) (fuel : nat),
    (forall j, (j < k)%nat -> loop_guard (conf (after_iterations j w)) = true) ->
    loop_guard (conf (after_iterations k w)) = false ->
    (k < fuel)%nat ->
    run fuel w = Some (after_iterations k w).
Proof.
  induction k as [|k IH]; intros w fuel Hrun Hstop Hfuel.
  - destruct fuel as [|fuel]; [lia|].
    simpl in *. unfold run; simpl.
    fold step. now rewrite (step_leaving w Hstop).
  - destruct fuel as [|fuel]; [lia|].
    unfold run; simpl. fold step.
    rewrite (step_running w (Hrun 0%nat ltac:(lia))).
    apply IH.
    + intros j Hj. apply (Hrun (S j)). lia.
    + exact Hstop.
    + lia.
Qed.

(** While the guard holds in every world reached, no bound suffices. *)
Lemma run_keeps_going (fuel : nat) :
  forall w : World Env,
    (forall k, loop_guard (conf (after_iterations k w)) = true) ->
    run fuel w = None.
Proof.
  induction fuel as [|fuel IH]; intros w Hrun; [reflexivity|].
  unfold run; simpl. fold step.
  rewrite (step_running w (Hrun 0%nat)).
  apply IH. intros k. apply (Hrun (S k)).
Qed.

(** C1: at every evaluation of the guard another iteration runs exactly when
    [shutdown] is false or [FIDI] is true; the loop is left at the first
    evaluation that finds [shutdown] set and [FIDI] clear, and is never left
    while [FIDI] stays true, whatever [shutdown] is. *)
Theorem main_process_guard :
  (forall w : World Env,
     step w = Some (body w) <-> shutdown (conf w) = false \/ FIDI (conf w) = true) /\
  (forall w : World Env,
     step w = None <-> shutdown (conf w) = true /\ FIDI (conf w) = false) /\
  (forall (w : World Env) (k fuel : nat),
     (forall j, (j < k)%nat ->
        shutdown (conf (after_iterations j w)) = false \/
        FIDI (conf (after_iterations j w)) = true) ->
     shutdown (conf (after_iterations k w)) = true ->
     FIDI (conf (after_iterations k w)) = false ->
     (k < fuel)%nat ->
     run fuel w = Some (after_iterations k w)) /\
  (forall w : World Env,
     (forall k, FIDI (conf (after_iterations k w)) = true) ->
     forall fuel, run fuel w = None).
Proof.
  split; [|split; [|split]].
  - intros w. rewrite <- loop_guard_iff. unfold step, loop_step.
    destruct (loop_guard (conf w)); split; intros H;
      try reflexivity; try discriminate.
  - intros w. rewrite <- loop_guard_false_iff. unfold step, loop_step.
    destruct (loop_guard (conf w)); split; intros H;
      try reflexivity; try discriminate.
  - intros w k fuel Hrun Hs Hf Hfuel. apply run_leaves_at.
    + intros j Hj. apply loop_guard_iff. now apply Hrun.
    + apply loop_guard_false_iff. now split.
    + exact Hfuel.
  - intros w Hfidi fuel. apply run_keeps_going.
    intros k. apply loop_guard_iff. right. apply Hfidi.
Qed.

End MainProcessFacts.

Lemma main_process_guard_witness :
  Avionics.main_process unit Spec.act_shutdown (fun _ w => w) (fun w => w) (fun _ w => w)
    3 Spec.idle_world
  = Some (Avionics.iterations unit Spec.act_shutdown (fun _ w => w) (fun w => w)
            (fun _ w => w) 1 Spec.idle_world).
Proof.
  apply (proj1 (proj2 (proj2
           (main_process_guard unit Spec.act_shutdown (fun _ w => w) (fun w => w)
              (fun _ w => w))))).
  - intros j Hj. assert (j = 0%nat) by lia. subst j. left. reflexivity.
  - reflexivity.
  - reflexivity.
  - lia.
Defined.

(* ----------------------------------------------------------------- *)
(** ** The reference-data filter of the driver *)

Section FilterFacts.

Import Drag Driver Spec.

(** One iteration of the filter loop on the row itself. *)
Let on_row (f : Filter) (row : Row) : Filter :=
  if cell_gtb (last_mach f) (Mach_Number row) then f
  else {| machs2 := machs2 f ++ [Mach_Number row];
          drags2 := drags2 f ++ [CD row];
          last_height := Altitude_ft row;
          last_mach := Mach_Number row |}.

(** Indexing by [range(len(p))] visits the rows in order; no lookup fails. *)
Lemma filter_indices_traverse (suf : list Row) :
  forall (pre : list Row) (f : Filter),
    fold_left (filter_body (pre ++ suf))
      (seq (List.length pre) (List.length suf)) (Some f)
    = Some (fold_left on_row suf f).
Proof.
  induction suf as [|row suf IH]; intros pre f; [reflexivity|].
  simpl. rewrite nth_error_app2 by lia. rewrite Nat.sub_diag. simpl.
  replace (pre ++ row :: suf) with ((pre ++ [row]) ++ suf)
    by (rewrite <- app_assoc; reflexivity).
  replace (S (List.length pre)) with (List.length (pre ++ [row]))
    by (rewrite length_app; simpl; lia).
  rewrite <- (IH (pre ++ [row]) (on_row f row)). f_equal.
  unfold on_row. now destruct (cell_gtb (last_mach f) (Mach_Number row)).
Qed.

Lemma filter_loop_traverse (p : list Row) :
  filter_loop p = Some (fold_left on_row p filter_init).
Proof.
  unfold filter_loop. apply (filter_indices_traverse p []).
Qed.

(** Among floats that are not NaN, [>] is the negation of [<=]. *)
Lemma cell_gtb_leb (x y : Cell) :
  missing x = false -> missing y = false ->
  cell_gtb x y = negb (cell_leb x y).
Proof.
  destruct x, y; simpl; intros Hx Hy; try discriminate; reflexivity.
Qed.

(** The lists grow by the retained rows, and nothing else. *)
Lemma on_rows_retained (rows : list Row) :
  forall f : Filter,
    machs2 (fold_left on_row rows f)
      = machs2 f ++ map Mach_Number (retained_from (last_mach f) rows) /\
    drags2 (fold_left on_row rows f)
      = drags2 f ++ map CD (retained_from (last_mach f) rows).
Proof.
  induction rows as [|row rows IH]; intros f; simpl.
  - now rewrite !app_nil_r.
  - unfold on_row at 2 4.
    destruct (cell_gtb (last_mach f) (Mach_Number row)); simpl.
    + apply IH.
    + destruct (IH {| machs2 := machs2 f ++ [Mach_Number row];
                      drags2 := drags2 f ++ [CD row];
                      last_height := Altitude_ft row;
                      last_mach := Mach_Number row |}) as [Hm Hd].
      rewrite Hm, Hd. simpl. now rewrite <- !app_assoc.
Qed.

(** Without a missing Mach cell the retained Mach numbers never decrease. *)
Lemma retained_nondecreasing (rows : list Row) :
  forall last : Cell,
    missing last = false ->
    complete (map Mach_Number rows) = true ->
    nondecreasing_from last (map Mach_Number (retained_from last rows)) = true.
Proof.
  induction rows as [|row rows IH]; intros last Hlast Hrows; simpl;
    [reflexivity|].
  simpl in Hrows. apply andb_true_iff in Hrows. destruct Hrows as [Hrow Hrows].
  apply negb_true_iff in Hrow.
  rewrite (cell_gtb_leb last (Mach_Number row) Hlast Hrow).
  destruct (cell_leb last (Mach_Number row)) eqn:Hle; simpl.
  - rewrite Hle. simpl. now apply IH.
  - now apply IH.
Qed.

Lemma nondecreasing_from_nondecreasing (last : Cell) (l : list Cell) :
  nondecreasing_from last l = true -> nondecreasing l = true.
Proof.
  destruct l as [|m l]; simpl; [reflexivity|].
  intros H. apply andb_true_iff in H. apply H.
Qed.

(** C4, as stated, fails: of two rows with the same Mach number both are
    retained, so the retained Mach numbers are not strictly increasing. *)
Lemma filter_retains_repeated_mach :
  option_map machs2 (filter_loop repeated_rows)
    = Some [Num 0.1; Num 0.1] /\
  option_map (fun f => strictly_increasing (machs2 f)) (filter_loop repeated_rows)
    = Some false.
Proof.
  split; reflexivity.
Qed.

(** C4 (amended): the filter ends normally on every table and retains a row
    exactly when the Mach number retained last (-100 before any row is
    retained) does not exceed the row's Mach number, in the comparison of
    floats.  On a table without a missing Mach cell the retained Mach numbers
    never decrease; equal ones are kept, and [0.1, 0.3, 0.2, 0.5] yields
    [0.1, 0.3, 0.5].  A missing Mach cell is read as NaN, which nothing
    exceeds and which exceeds nothing: its row is retained and so is the row
    after it, and [0.5, blank, 0.2] yields [0.5, NaN, 0.2], which does
    decrease. *)
Theorem filter_retains_nondecreasing :
  (forall p : list Row,
     exists f : Filter,
       filter_loop p = Some f /\
       machs2 f = map Mach_Number (retained_from (Num (-100)) p) /\
       drags2 f = map CD (retained_from (Num (-100)) p) /\
       (complete (map Mach_Number p) = true ->
        nondecreasing (machs2 f) = true)) /\
  option_map machs2 (filter_loop example_rows)
    = Some [Num 0.1; Num 0.3; Num 0.5] /\
  option_map machs2 (filter_loop blank_rows)
    = Some [Num 0.5; NaN; Num 0.2] /\
  option_map (fun f => nondecreasing (machs2 f)) (filter_loop blank_rows)
    = Some false.
Proof.
  split; [|repeat split; reflexivity].
  intros p. exists (fold_left on_row p filter_init).
  destruct (on_rows_retained p filter_init) as [Hm Hd].
  split; [apply filter_loop_traverse|].
  split; [exact Hm|]. split; [exact Hd|].
  intros Hp. rewrite Hm. simpl.
  apply (nondecreasing_from_nondecreasing (Num (-100))).
  now apply retained_nondecreasing.
Qed.

Lemma filter_retains_nondecreasing_witness :
  exists f : Filter,
    filter_loop example_rows = Some f /\
    nondecreasing (machs2 f) = true.
Proof.
  destruct (proj1 filter_retains_nondecreasing example_rows)
    as (f & Hrun & _ & _ & Hnd).
  exists f. split; [exact Hrun|]. apply Hnd. reflexivity.
Defined.

End FilterFacts.

(* ----------------------------------------------------------------- *)
(** ** Python numbers *)

Section NumberFacts.

Lemma float_div_nonzero (x y : R) : y <> 0 -> float_div x y = Real (x / y).
Proof.
  intros Hy. unfold float_div. destruct (Req_dec_T y 0); [contradiction|reflexivity].
Qed.

Lemma py_div_real (x y : R) : y <> 0 -> py_div (Real x) (Real y) = Real (x / y).
Proof. apply float_div_nonzero. Qed.

Lemma py_div_zero (x : R) : py_div (Real x) (Real 0) = Raise ZeroDivisionError.
Proof.
  simpl. unfold float_div. destruct (Req_dec_T 0 0); [reflexivity|contradiction].
Qed.

Lemma Int_part_IZR (k : Z) : Int_part (IZR k) = k.
Proof.
  symmetry. apply Int_part_spec. lra.
Qed.

(** A positive base: the real power. *)
Lemma float_pow_pos (x y : R) : 0 < x -> float_pow x y = Real (Rpower x y).
Proof.
  intros Hx. unfold float_pow.
  destruct (Req_dec_T y 0) as [->|Hy].
  - now rewrite Rpower_O.
  - destruct (Req_dec_T x 0); [lra|].
    destruct (Rlt_dec x 0); [lra|reflexivity].
Qed.

Lemma py_pow_pos (x y : R) : 0 < x -> py_pow (Real x) (Real y) = Real (Rpower x y).
Proof. apply float_pow_pos. Qed.

(** A positive integer exponent: the iterated product, whatever the base. *)
Lemma float_pow_nat (x : R) (n : nat) :
  (0 < n)%nat -> float_pow x (IZR (Z.of_nat n)) = Real (x ^ n).
Proof.
  intros Hn. unfold float_pow.
  assert (Hy : IZR (Z.of_nat n) <> 0).
  { apply not_0_IZR. lia. }
  destruct (Req_dec_T (IZR (Z.of_nat n)) 0); [contradiction|].
  destruct (Req_dec_T x 0) as [->|Hx].
  - destruct (Rlt_dec (IZR (Z.of_nat n)) 0) as [Hneg|_].
    + apply lt_IZR in Hneg. lia.
    + rewrite pow_i by exact Hn. reflexivity.
  - destruct (Rlt_dec x 0) as [Hneg|Hpos].
    + rewrite Int_part_IZR.
      destruct (Req_dec_T (IZR (Z.of_nat n)) (IZR (Z.of_nat n))); [|contradiction].
      now rewrite <- pow_powerRZ.
    + rewrite <- INR_IZR_INZ. rewrite Rpower_pow by lra. reflexivity.
Qed.

Lemma py_pow_2 (x : R) : py_pow (Real x) (Real 2) = Real (x ^ 2).
Proof. exact (float_pow_nat x 2 ltac:(lia)). Qed.

Lemma py_pow_3 (x : R) : py_pow (Real x) (Real 3) = Real (x ^ 3).
Proof. exact (float_pow_nat x 3 ltac:(lia)). Qed.

Lemma py_pow_4 (x : R) : py_pow (Real x) (Real 4) = Real (x ^ 4).
Proof. exact (float_pow_nat x 4 ltac:(lia)). Qed.

Lemma py_pow_5 (x : R) : py_pow (Real x) (Real 5) = Real (x ^ 5).
Proof. exact (float_pow_nat x 5 ltac:(lia)). Qed.

Lemma py_pow_6 (x : R) : py_pow (Real x) (Real 6) = Real (x ^ 6).
Proof. exact (float_pow_nat x 6 ltac:(lia)). Qed.

Lemma py_mul_real (u w : R) : py_mul (Real u) (Real w) = Real (u * w).
Proof. reflexivity. Qed.

Lemma py_pow_real (u w : R) : py_pow (Real u) (Real w) = float_pow u w.
Proof. reflexivity. Qed.

Lemma hypot_real (x : R) : hypot x 0 = Rabs x.
Proof.
  unfold hypot. replace (x * x + 0 * 0) with (Rsqr x) by (unfold Rsqr; ring).
  apply sqrt_Rsqr_abs.
Qed.

Lemma hypot_pos (x y : R) : is_zero (x, y) = false -> 0 < hypot x y.
Proof.
  unfold is_zero, hypot; simpl. intros H. apply sqrt_lt_R0.
  destruct (Req_dec_T x 0) as [->|Hx].
  - destruct (Req_dec_T y 0) as [->|Hy]; [discriminate|]. nra.
  - nra.
Qed.

Lemma atan2_negative_real (x : R) : x < 0 -> atan2 0 x = PI.
Proof.
  intros Hx. unfold atan2.
  destruct (Rlt_dec 0 x); [lra|].
  destruct (Rlt_dec x 0); [|lra].
  destruct (Rle_dec 0 0); [|lra].
  unfold Rdiv. rewrite Rmult_0_l, atan_0. ring.
Qed.

(** A negative base with a fractional exponent: the complex power of modulus
    [(-x) ** y] and angle [PI * y]. *)
Lemma float_pow_neg_frac (x y : R) :
  x < 0 -> IZR (Int_part y) <> y ->
  float_pow x y
  = Complex (Rpower (- x) y * cos (PI * y)) (Rpower (- x) y * sin (PI * y)).
Proof.
  intros Hx Hy. unfold float_pow.
  destruct (Req_dec_T y 0) as [->|Hy0].
  - exfalso. apply Hy. change 0 with (IZR 0). now rewrite Int_part_IZR.
  - destruct (Req_dec_T x 0); [lra|].
    destruct (Rlt_dec x 0); [|lra].
    destruct (Req_dec_T (IZR (Int_part y)) y); [contradiction|].
    unfold c_pow, is_zero; simpl.
    destruct (Req_dec_T y 0); [contradiction|].
    destruct (Req_dec_T x 0); [lra|].
    destruct (Req_dec_T 0 0); [|lra].
    rewrite hypot_real, atan2_negative_real by exact Hx.
    rewrite Rabs_left by exact Hx. reflexivity.
Qed.

Lemma fractional (k : Z) (y : R) : IZR k < y < IZR k + 1 -> IZR (Int_part y) <> y.
Proof.
  intros [Hlo Hhi] Heq.
  assert (Hk : k = Int_part y) by (apply Int_part_spec; lra).
  rewrite <- Hk in Heq. lra.
Qed.

Lemma log10_pos (x : R) : 0 < x -> log10 (Real x) = Real (ln x / ln 10).
Proof.
  intros Hx. simpl. destruct (Rlt_dec 0 x); [reflexivity|contradiction].
Qed.

Lemma ln_10_pos : 0 < ln 10.
Proof.
  rewrite <- ln_1. apply ln_increasing; lra.
Qed.

Lemma log10_gt_1 (x : R) : 1 < x -> 0 < ln x / ln 10.
Proof.
  intros Hx. apply Rdiv_lt_0_compat; [|apply ln_10_pos].
  rewrite <- ln_1. apply ln_increasing; lra.
Qed.

Lemma log10_lt_tenth (x : R) : 0 < x -> x < / 10 -> ln x / ln 10 < -1.
Proof.
  intros H0 Hx.
  assert (H10 := ln_10_pos).
  assert (Hln : ln x < - ln 10).
  { rewrite <- ln_Rinv by lra. apply ln_increasing; lra. }
  apply Rmult_lt_reg_r with (ln 10); [exact H10|].
  unfold Rdiv. rewrite Rmult_assoc, Rinv_l by lra. lra.
Qed.

Lemma Rpower_pos (x y : R) : 0 < Rpower x y.
Proof. unfold Rpower. apply exp_pos. Qed.

End NumberFacts.

(* ----------------------------------------------------------------- *)
(** ** Methods of [Rocket] leave the instance unchanged *)

Create HintDb frame discriminated.

Section Frame.

Import Drag Spec.

Lemma readonly_ret {A : Type} (a : A) : readonly (ret a).
Proof. intros self. reflexivity. Qed.

Lemma readonly_this : readonly this.
Proof. intros self. reflexivity. Qed.

Lemma readonly_bind {A B : Type} (m : Exec A) (k : A -> Exec B) :
  readonly m -> (forall a, readonly (k a)) -> readonly (bind m k).
Proof.
  intros Hm Hk self. unfold bind.
  specialize (Hm self). destruct (m self) as [a self']. simpl in Hm. subst self'.
  apply Hk.
Qed.

Lemma readonly_branch (c : cond) (t e : Exec val) :
  readonly t -> readonly e -> readonly (branch c t e).
Proof.
  intros Ht He. destruct c as [err|[|]]; simpl; auto using readonly_ret.
Qed.

Lemma readonly_if {A : Type} (b : bool) (t e : Exec A) :
  readonly t -> readonly e -> readonly (if b then t else e).
Proof. now destruct b. Qed.

(** A read-only computation is determined by the value it returns. *)
Lemma readonly_run {A : Type} (m : Exec A) (self : Rocket) :
  readonly m -> m self = (value m self, self).
Proof.
  intros Hm. unfold value. specialize (Hm self).
  destruct (m self) as [a self']. simpl in *. now subst.
Qed.

Lemma value_bind {A B : Type} (m : Exec A) (k : A -> Exec B) (self : Rocket) :
  readonly m -> value (bind m k) self = value (k (value m self)) self.
Proof.
  intros Hm. unfold value at 1. unfold bind.
  rewrite (readonly_run m self Hm). reflexivity.
Qed.

Lemma value_this (self : Rocket) : value this self = self.
Proof. reflexivity. Qed.

Lemma value_ret {A : Type} (a : A) (self : Rocket) : value (ret a) self = a.
Proof. reflexivity. Qed.

#[local] Hint Resolve readonly_ret readonly_this readonly_branch : frame.
#[local] Hint Extern 1 (readonly (bind _ _)) =>
  apply readonly_bind; [|intro] : frame.
#[local] Hint Extern 1 (readonly (if _ then _ else _)) =>
  apply readonly_if : frame.

Ltac frame m := intros; unfold m; auto 30 with frame.

Lemma a_readonly h : readonly (a h).
Proof. frame a. Qed.

Lemma v_readonly h : readonly (v h).
Proof. frame v. Qed.

Lemma Rn_star_readonly h : readonly (Rn_star h).
Proof. pose proof a_readonly. frame Rn_star. Qed.

Lemma C_f_star_readonly h : readonly (C_f_star h).
Proof. pose proof Rn_star_readonly. frame C_f_star. Qed.

Lemma C_f_readonly h : readonly (C_f h).
Proof. pose proof C_f_star_readonly. frame C_f. Qed.

Lemma C_f_term_star_readonly : readonly C_f_term_star.
Proof. frame C_f_term_star. Qed.

Lemma C_f_term_readonly : readonly C_f_term.
Proof. pose proof C_f_term_star_readonly. frame C_f_term. Qed.

Lemma C_f_final_readonly h : readonly (C_f_final h).
Proof. pose proof C_f_readonly. pose proof C_f_term_readonly. frame C_f_final. Qed.

Lemma body_friction_drag_readonly h : readonly (body_friction_drag h).
Proof. pose proof C_f_final_readonly. frame body_friction_drag. Qed.

Lemma R_n_readonly h : readonly (R_n h).
Proof. pose proof a_readonly. frame R_n. Qed.

Lemma C_f_lambda_readonly h : readonly (C_f_lambda h).
Proof. pose proof C_f_final_readonly. pose proof R_n_readonly. frame C_f_lambda. Qed.

Lemma fin_friction_drag_readonly h : readonly (fin_friction_drag h).
Proof. pose proof C_f_lambda_readonly. frame fin_friction_drag. Qed.

Lemma protuberance_friction_drag_readonly : readonly protuberance_friction_drag.
Proof. frame protuberance_friction_drag. Qed.

Lemma excrescencies_friction_drag_readonly : readonly excrescencies_friction_drag.
Proof. frame excrescencies_friction_drag. Qed.

Lemma skin_friction_drag_readonly h : readonly (skin_friction_drag h).
Proof.
  pose proof body_friction_drag_readonly. pose proof fin_friction_drag_readonly.
  pose proof protuberance_friction_drag_readonly.
  pose proof excrescencies_friction_drag_readonly.
  frame skin_friction_drag.
Qed.

Lemma n_readonly : readonly n.
Proof. frame n. Qed.

Lemma K_b_readonly : readonly K_b.
Proof. frame K_b. Qed.

Lemma base_drag_readonly h : readonly (base_drag h).
Proof.
  pose proof n_readonly. pose proof K_b_readonly.
  pose proof skin_friction_drag_readonly. frame base_drag.
Qed.

Lemma M_d_readonly : readonly M_d.
Proof. frame M_d. Qed.

Lemma M_f_readonly : readonly M_f.
Proof. frame M_f. Qed.

Lemma C_d_max_readonly : readonly C_d_max.
Proof. frame C_d_max. Qed.

Lemma transonic_wave_drag_readonly : readonly transonic_wave_drag.
Proof.
  pose proof M_d_readonly. pose proof M_f_readonly. pose proof C_d_max_readonly.
  frame transonic_wave_drag.
Qed.

Lemma supersonic_wave_drag_readonly : readonly supersonic_wave_drag.
Proof. frame supersonic_wave_drag. Qed.

(** C9: evaluating [drag_coefficient(h)], and every method it calls directly
    or indirectly, returns the instance with every attribute as it was: no
    evaluation method assigns to [self]. *)
Theorem drag_coefficient_frame :
  forall (self : Rocket) (h : R),
    snd (drag_coefficient h self) = self /\
    snd (skin_friction_drag h self) = self /\
    snd (body_friction_drag h self) = self /\
    snd (C_f_final h self) = self /\
    snd (C_f h self) = self /\
    snd (C_f_star h self) = self /\
    snd (Rn_star h self) = self /\
    snd (a h self) = self /\
    snd (C_f_term self) = self /\
    snd (C_f_term_star self) = self /\
    snd (fin_friction_drag h self) = self /\
    snd (C_f_lambda h self) = self /\
    snd (R_n h self) = self /\
    snd (protuberance_friction_drag self) = self /\
    snd (excrescencies_friction_drag self) = self /\
    snd (base_drag h self) = self /\
    snd (K_b self) = self /\
    snd (n self) = self /\
    snd (transonic_wave_drag self) = self /\
    snd (M_d self) = self /\
    snd (M_f self) = self /\
    snd (C_d_max self) = self /\
    snd (supersonic_wave_drag self) = self.
Proof.
  intros self h.
  assert (Hdc : readonly (drag_coefficient h)).
  { pose proof skin_friction_drag_readonly. pose proof base_drag_readonly.
    pose proof transonic_wave_drag_readonly.
    pose proof supersonic_wave_drag_readonly.
    frame drag_coefficient. }
  split; [exact (Hdc self)|].
  split; [exact (skin_friction_drag_readonly h self)|].
  split; [exact (body_friction_drag_readonly h self)|].
  split; [exact (C_f_final_readonly h self)|].
  split; [exact (C_f_readonly h self)|].
  split; [exact (C_f_star_readonly h self)|].
  split; [exact (Rn_star_readonly h self)|].
  split; [exact (a_readonly h self)|].
  split; [exact (C_f_term_readonly self)|].
  split; [exact (C_f_term_star_readonly self)|].
  split; [exact (fin_friction_drag_readonly h self)|].
  split; [exact (C_f_lambda_readonly h self)|].
  split; [exact (R_n_readonly h self)|].
  split; [exact (protuberance_friction_drag_readonly self)|].
  split; [exact (excrescencies_friction_drag_readonly self)|].
  split; [exact (base_drag_readonly h self)|].
  split; [exact (K_b_readonly self)|].
  split; [exact (n_readonly self)|].
  split; [exact (transonic_wave_drag_readonly self)|].
  split; [exact (M_d_readonly self)|].
  split; [exact (M_f_readonly self)|].
  split; [exact (C_d_max_readonly self)|].
  exact (supersonic_wave_drag_readonly self).
Qed.

End Frame.

#[local] Hint Resolve readonly_ret readonly_this readonly_branch a_readonly
  Rn_star_readonly C_f_star_readonly C_f_readonly C_f_term_star_readonly
  C_f_term_readonly C_f_final_readonly body_friction_drag_readonly
  R_n_readonly C_f_lambda_readonly fin_friction_drag_readonly
  protuberance_friction_drag_readonly excrescencies_friction_drag_readonly
  skin_friction_drag_readonly n_readonly K_b_readonly base_drag_readonly
  M_d_readonly M_f_readonly C_d_max_readonly transonic_wave_drag_readonly
  supersonic_wave_drag_readonly : frame.
#[local] Hint Extern 1 (Spec.readonly (Drag.bind _ _)) =>
  apply readonly_bind; [|intro] : frame.
#[local] Hint Extern 1 (Spec.readonly (if _ then _ else _)) =>
  apply readonly_if : frame.

(* ----------------------------------------------------------------- *)
(** ** The constructor and the speed of sound *)

Section ConstructorFacts.

Import Drag Spec.

Lemma mach_per_fps_pos : 0 < mach_per_fps.
Proof. unfold mach_per_fps. lra. Qed.

Lemma init_M_nonzero (vb : option bool) (mach : option R) : M (__init__ vb mach) <> 0.
Proof.
  unfold __init__; simpl.
  destruct mach as [m|].
  - destruct (Req_dec_T m 0) as [->|Hm]; simpl.
    + unfold mach_per_fps. lra.
    + exact Hm.
  - destruct (Req_dec_T 0 0); simpl; [unfold mach_per_fps; lra|lra].
Qed.

(** C10: a Mach argument other than zero is stored as [M], with
    [velocity = M / 0.0008957066031914082]; a Mach argument of zero, passed
    or defaulted, gives [velocity = 143.4] and
    [M = 143.4 * 0.0008957066031914082], about 0.1284.  No instance has
    [M = 0], and passing zero builds the same instance as passing nothing. *)
Theorem init_mach_override :
  (forall (vb : option bool) (m : R),
     m <> 0 ->
     M (__init__ vb (Some m)) = m /\
     velocity (__init__ vb (Some m)) = m / 0.0008957066031914082) /\
  (forall vb : option bool,
     velocity (__init__ vb (Some 0)) = 143.4 /\
     M (__init__ vb (Some 0)) = 143.4 * 0.0008957066031914082 /\
     0.1284 < M (__init__ vb (Some 0)) < 0.1285) /\
  (forall (vb : option bool) (mach : option R), M (__init__ vb mach) <> 0) /\
  (forall vb : option bool, __init__ vb (Some 0) = __init__ vb None).
Proof.
  split; [|split; [|split]].
  - intros vb m Hm. unfold __init__; simpl.
    destruct (Req_dec_T m 0); [contradiction|]. simpl. split; reflexivity.
  - intros vb. unfold __init__; simpl.
    destruct (Req_dec_T 0 0); [|lra]. simpl. unfold mach_per_fps.
    repeat split; lra.
  - apply init_M_nonzero.
  - intros vb. reflexivity.
Qed.

Lemma init_mach_override_witness :
  M (__init__ None (Some 0.5)) = 0.5 /\
  velocity (__init__ None (Some 0.5)) = 0.5 / 0.0008957066031914082.
Proof.
  apply (proj1 init_mach_override None 0.5). lra.
Defined.

Lemma a_run (h : R) (self : Rocket) : a h self = (Real (speed_of_sound h), self).
Proof.
  unfold a, ret, speed_of_sound, a_low, a_mid, a_high. simpl.
  destruct (Rle_dec h 37000); simpl; [reflexivity|].
  destruct (Rle_dec h 64000); reflexivity.
Qed.

Lemma a_value (h : R) (self : Rocket) : value (a h) self = Real (speed_of_sound h).
Proof. unfold value. now rewrite a_run. Qed.

Lemma speed_of_sound_pos (h : R) : 968 < speed_of_sound h.
Proof.
  unfold speed_of_sound, a_low, a_mid, a_high.
  destruct (Rle_dec h 37000); [lra|].
  destruct (Rle_dec h 64000); lra.
Qed.

Lemma jump_not_continuous (f : R -> R) (x0 eps : R) :
  jumps_at f x0 eps -> ~ continuous_at f x0.
Proof.
  intros [Heps Hjump] Hcont.
  destruct (Hcont eps Heps) as (delta & Hdelta & Hclose).
  destruct (Hjump delta Hdelta) as (x & Hx & Hfar).
  specialize (Hclose x Hx). lra.
Qed.

(** C3, as stated, fails: however close above 37000 the altitude is taken,
    the speed of sound there differs from its value at 37000 by 0.37, so
    [a] is not continuous at that boundary. *)
Lemma a_jumps_at_37000 :
  jumps_at (a_of (__init__ None None)) 37000 0.37 /\
  ~ continuous_at (a_of (__init__ None None)) 37000.
Proof.
  assert (Hjump : jumps_at (a_of (__init__ None None)) 37000 0.37).
  { split; [lra|].
    intros delta Hdelta. exists (37000 + Rmin (delta / 2) 1).
    assert (Hmin : 0 < Rmin (delta / 2) 1 <= 1).
    { split; [apply Rmin_glb_lt; lra|apply Rmin_r]. }
    assert (Hmin' : Rmin (delta / 2) 1 <= delta / 2) by apply Rmin_l.
    split.
    - rewrite Rabs_right by lra. lra.
    - unfold a_of. rewrite !a_value. simpl. unfold speed_of_sound, a_low, a_mid.
      destruct (Rle_dec (37000 + Rmin (delta / 2) 1) 37000); [lra|].
      destruct (Rle_dec (37000 + Rmin (delta / 2) 1) 64000); [|lra].
      destruct (Rle_dec 37000 37000); [|lra].
      rewrite Rabs_left by lra. lra. }
  split; [exact Hjump|].
  apply (jump_not_continuous _ _ _ Hjump).
Qed.

(** C3 (amended): [a(h)] is [-0.004 h + 1116.45] for [h <= 37000], [968.08]
    for [37000 < h <= 64000] and [0.0007 h + 924.99] for [h > 64000].  The
    segments do not meet: at 37000 the first gives 968.45, 0.37 above the
    constant, and at 64000 the third gives 969.79, 1.71 above it. *)
Theorem a_piecewise :
  (forall (self : Rocket) (h : R), a h self = (Real (speed_of_sound h), self)) /\
  (forall h : R, h <= 37000 -> speed_of_sound h = -0.004 * h + 1116.45) /\
  (forall h : R, 37000 < h <= 64000 -> speed_of_sound h = 968.08) /\
  (forall h : R, 64000 < h -> speed_of_sound h = 0.0007 * h + 924.99) /\
  a_low 37000 = 968.45 /\ a_low 37000 - a_mid = 0.37 /\
  a_high 64000 = 969.79 /\ a_high 64000 - a_mid = 1.71.
Proof.
  split; [intros; apply a_run|].
  unfold speed_of_sound, a_low, a_mid, a_high.
  repeat split; try lra.
  - intros h Hh. destruct (Rle_dec h 37000); [reflexivity|lra].
  - intros h Hh. destruct (Rle_dec h 37000); [lra|].
    destruct (Rle_dec h 64000); [reflexivity|lra].
  - intros h Hh. destruct (Rle_dec h 37000); [lra|].
    destruct (Rle_dec h 64000); [lra|reflexivity].
Qed.

Lemma a_piecewise_witness : speed_of_sound 500 = -0.004 * 500 + 1116.45.
Proof.
  apply (proj1 (proj2 a_piecewise) 500). lra.
Defined.

End ConstructorFacts.

(* ----------------------------------------------------------------- *)
(** ** The Reynolds number proxy and the base drag *)

Section FormulaFacts.

Import Drag Spec.

Lemma Rn_star_run (self : Rocket) (h : R) :
  Rn_star h self = (Rn_star_spec Rn_factor h self, self).
Proof.
  unfold Rn_star, Rn_star_spec, bind, this, ret.
  rewrite a_run.
  rewrite py_pow_3, py_pow_4, py_pow_5. simpl.
  destruct (float_div _ _) as [q|re im|e]; simpl; try reflexivity.
  - do 2 f_equal. unfold Rn_factor. ring.
  - unfold c_prod; simpl. do 2 f_equal; unfold Rn_factor; ring.
Qed.

(** C5: [Rn_star(h)] is [a(h) * M * (L_b + L_n) / (12 * velocity)] times
    [1 + 0.0283 M - 0.043 (M * 2) + 0.2107 M^3 - 0.03829 M^4 + 0.002709 M^5];
    the second-order term is the product of [M] and two, that is [-0.086 M],
    and the result differs from the one a squared term would give. *)
Theorem Rn_star_literal :
  (forall (self : Rocket) (h : R),
     Rn_star h self = (Rn_star_spec Rn_factor h self, self)) /\
  (forall M : R,
     Rn_factor M
     = 1 + 0.0283 * M - 0.086 * M + 0.2107 * M ^ 3 - 0.03829 * M ^ 4
         + 0.002709 * M ^ 5) /\
  (exists (self : Rocket) (h : R),
     value (Rn_star h) self <> Rn_star_spec Rn_factor_squared h self).
Proof.
  split; [|split].
  - apply Rn_star_run.
  - intros M. unfold Rn_factor. lra.
  - exists (__init__ None (Some 1)), 500.
    unfold value, Rn_star, Rn_star_spec, bind, this, ret.
    rewrite a_run.
    rewrite py_pow_3, py_pow_4, py_pow_5.
    unfold __init__; simpl.
    destruct (Req_dec_T 1 0) as [H|_]; [lra|]. simpl.
    rewrite float_div_nonzero by (unfold mach_per_fps; lra). simpl.
    intros Heq. injection Heq as Heq.
    apply Rmult_eq_reg_l in Heq.
    + unfold Rn_factor_squared in Heq. lra.
    + unfold speed_of_sound, a_low, mach_per_fps.
      destruct (Rle_dec 500 37000); [|lra]. lra.
Qed.

Lemma half_fractional : IZR (Int_part (1 / 2)) <> 1 / 2.
Proof. apply (fractional 0); lra. Qed.

(** Raising to the power one half is taking the principal square root. *)
Lemma pow_half_sqrt (u : val) : py_pow u (py_div (Real 1) (Real 2)) = py_sqrt u.
Proof.
  rewrite py_div_real by lra.
  destruct u as [x|re im|e]; simpl; [| |reflexivity].
  - destruct (Rle_dec 0 x) as [Hx|Hx].
    + destruct (Req_dec x 0) as [->|Hx0].
      * unfold float_pow.
        destruct (Req_dec_T (1 / 2) 0); [lra|].
        destruct (Req_dec_T 0 0); [|lra].
        destruct (Rlt_dec (1 / 2) 0); [lra|].
        now rewrite sqrt_0.
      * rewrite float_pow_pos by lra.
        replace (1 / 2) with (/ 2) by lra.
        now rewrite Rpower_sqrt by lra.
    + rewrite float_pow_neg_frac by (try apply half_fractional; lra).
      replace (PI * (1 / 2)) with (PI / 2) by lra.
      rewrite cos_PI2, sin_PI2.
      replace (1 / 2) with (/ 2) by lra.
      rewrite Rpower_sqrt by lra.
      f_equal; ring.
  - unfold c_pow. cbn [fst snd].
    assert (Hb : is_zero (1 / 2, 0) = false).
    { unfold is_zero; simpl. destruct (Req_dec_T (1 / 2) 0); [lra|reflexivity]. }
    rewrite Hb.
    destruct (is_zero (re, im)) eqn:Ha.
    + destruct (Req_dec_T 0 0); [|lra].
      destruct (Rlt_dec (1 / 2) 0); [lra|].
      unfold is_zero in Ha; simpl in Ha.
      destruct (Req_dec_T re 0) as [->|]; [|discriminate].
      destruct (Req_dec_T im 0) as [->|]; [|discriminate].
      assert (Hh : hypot 0 0 = 0).
      { unfold hypot. replace (0 * 0 + 0 * 0) with 0 by ring. apply sqrt_0. }
      rewrite Hh, sqrt_0. f_equal; ring.
    + destruct (Req_dec_T 0 0); [|lra].
      replace (1 / 2) with (/ 2) by lra.
      rewrite Rpower_sqrt by (now apply hypot_pos).
      reflexivity.
Qed.

Lemma regime_subsonic (m : R) :
  py_add (Real 1) (py_mul (Real 215.8) (py_pow (py_sub (Real m) (Real 0.6)) (Real 6)))
  = Real (1 + 215.8 * (m - 0.6) ^ 6).
Proof. simpl. rewrite (float_pow_nat _ 6) by lia. reflexivity. Qed.

Lemma regime_transonic (m : R) :
  py_add
    (py_add
       (py_sub
          (py_mul (Real 2.0881) (py_pow (py_sub (Real m) (Real 1)) (Real 3)))
          (py_mul (Real 3.7938) (py_pow (py_sub (Real m) (Real 1)) (Real 2))))
       (py_mul (Real 1.4618) (py_sub (Real m) (Real 1))))
    (Real 1.883917)
  = Real (2.0881 * (m - 1) ^ 3 - 3.7938 * (m - 1) ^ 2 + 1.4618 * (m - 1) + 1.883917).
Proof.
  simpl. rewrite (float_pow_nat _ 3), (float_pow_nat _ 2) by lia. reflexivity.
Qed.

Lemma regime_supersonic (m : R) :
  py_add
    (py_sub
       (py_sub
          (py_mul (Real 0.297) (py_pow (py_sub (Real m) (Real 2)) (Real 3)))
          (py_mul (Real 0.7937) (py_pow (py_sub (Real m) (Real 2)) (Real 2))))
       (py_mul (Real 0.1115) (py_sub (Real m) (Real 2))))
    (Real 1.64006)
  = Real (0.297 * (m - 2) ^ 3 - 0.7937 * (m - 2) ^ 2 - 0.1115 * (m - 2) + 1.64006).
Proof.
  simpl. rewrite (float_pow_nat _ 3), (float_pow_nat _ 2) by lia. reflexivity.
Qed.

Lemma base_drag_run (self : Rocket) (h : R) :
  base_drag h self = (base_drag_spec h self, self).
Proof.
  unfold base_drag, base_drag_spec.
  unfold bind at 1. unfold this at 1.
  unfold bind at 1. rewrite (readonly_run K_b self K_b_readonly).
  unfold bind at 1. rewrite (readonly_run n self n_readonly).
  unfold bind at 1.
  rewrite (readonly_run (skin_friction_drag h) self (skin_friction_drag_readonly h)).
  unfold ret. f_equal.
  rewrite pow_half_sqrt.
  rewrite regime_subsonic, regime_transonic, regime_supersonic.
  unfold value at 1 2. unfold K_b, n, bind, this, ret. cbn [fst].
  unfold regime_multiplier. cbn [py_gt py_lt compare_with].
  destruct (Rle_dec (M self) 0.6) as [Hle|Hgt].
  - destruct (Rgt_dec (M self) 0.6); [lra|]. reflexivity.
  - destruct (Rgt_dec (M self) 0.6); [|lra]. cbn [py_if].
    destruct (Rlt_dec (M self) 1); [reflexivity|]. cbn [py_if].
    destruct (Rlt_dec (M self) 2); reflexivity.
Qed.

(** C7: [base_drag(h)] is [K_b * (boat_tail_radius / radius) ** n] over the
    square root of [skin_friction_drag(h)], with
    [n = 3.6542 (L_b/d) ** (-0.2733)] and [K_b = 0.0274 atan (L_b/d + 0.0116)],
    unscaled for [M <= 0.6] and scaled by the multiplier of the regime
    [0.6 < M < 1], [1 <= M < 2] or [M >= 2] otherwise. *)
Theorem base_drag_regimes :
  (forall (self : Rocket) (h : R),
     base_drag h self = (base_drag_spec h self, self)) /\
  (forall m : R, m <= 0.6 -> regime_multiplier m = None) /\
  (forall m : R, 0.6 < m < 1 ->
     regime_multiplier m = Some (1 + 215.8 * (m - 0.6) ^ 6)) /\
  (forall m : R, 1 <= m < 2 ->
     regime_multiplier m
     = Some (2.0881 * (m - 1) ^ 3 - 3.7938 * (m - 1) ^ 2 + 1.4618 * (m - 1)
             + 1.883917)) /\
  (forall m : R, 2 <= m ->
     regime_multiplier m
     = Some (0.297 * (m - 2) ^ 3 - 0.7937 * (m - 2) ^ 2 - 0.1115 * (m - 2)
             + 1.64006)).
Proof.
  split; [apply base_drag_run|].
  unfold regime_multiplier; repeat split; intros m Hm;
    destruct (Rle_dec m 0.6); try lra; try reflexivity;
    destruct (Rlt_dec m 1); try lra; try reflexivity;
    destruct (Rlt_dec m 2); try lra; reflexivity.
Qed.

Lemma base_drag_regimes_witness :
  regime_multiplier 1 = Some (2.0881 * (1 - 1) ^ 3 - 3.7938 * (1 - 1) ^ 2
                              + 1.4618 * (1 - 1) + 1.883917).
Proof.
  apply (proj1 (proj2 (proj2 (proj2 base_drag_regimes))) 1). lra.
Defined.

(** C8: in every constructed instance the boat-tail radius and the reference
    radius are both 0.1666, and their quotient raised to any real exponent,
    that of [n()] included, is exactly one. *)
Theorem base_drag_ratio_one :
  forall (vb : option bool) (mach : option R),
    let self := __init__ vb mach in
    boat_tail_radius self = 0.1666 /\
    radius self = 0.1666 /\
    (forall e : R,
       py_pow (py_div (Real (boat_tail_radius self)) (Real (radius self))) (Real e)
       = Real 1) /\
    py_pow (py_div (Real (boat_tail_radius self)) (Real (radius self)))
           (value n self)
    = Real 1.
Proof.
  intros vb mach self.
  assert (Hratio : forall e : R,
             py_pow (py_div (Real (boat_tail_radius self)) (Real (radius self)))
                    (Real e) = Real 1).
  { intros e. subst self. cbn [boat_tail_radius radius __init__].
    rewrite py_div_real by lra.
    replace (0.1666 / 0.1666) with 1 by lra.
    rewrite py_pow_pos by lra.
    unfold Rpower. rewrite ln_1, Rmult_0_r, exp_0. reflexivity. }
  split; [reflexivity|]. split; [reflexivity|]. split; [exact Hratio|].
  assert (Hn : exists e : R, value n self = Real e).
  { subst self. unfold value, n, bind, this, ret.
    cbn [fst body_tube_length diameter __init__].
    rewrite py_div_real by lra.
    rewrite py_pow_pos by lra. simpl. eauto. }
  destruct Hn as [e ->]. apply Hratio.
Qed.

End FormulaFacts.

(* ----------------------------------------------------------------- *)
(** ** The geometry of a constructed instance *)

Section Geometry.

Import Drag Spec.

Lemma init_a_bounds : 5.4161 < init_a 0.1666 1.333 < 5.4162.
Proof. unfold init_a. lra. Qed.

(** The argument of [math.asin] in [__init__] is within its domain. *)
Lemma init_asin_domain : 0.2461 < 1.333 / init_a 0.1666 1.333 < 0.2462.
Proof. unfold init_a. lra. Qed.

Lemma sin_quarter : 0.2474 < sin 0.25.
Proof.
  assert (Hpi := PI2_1).
  destruct (SIN 0.25) as [Hlb _]; [lra|lra|].
  apply Rlt_le_trans with (sin_lb 0.25); [|exact Hlb].
  unfold sin_lb, sin_approx, sin_term. simpl. lra.
Qed.

Lemma asin_below_quarter (x : R) : -1 <= x < 0.2474 -> asin x < 0.25.
Proof.
  intros [H0 Hx].
  assert (Hpi := PI2_1).
  assert (Hb := asin_bound x).
  destruct (Rlt_dec (asin x) 0.25) as [Hlt|Hge]; [exact Hlt|].
  exfalso.
  assert (Hs : sin 0.25 <= sin (asin x)).
  { apply sin_incr_1; lra. }
  rewrite sin_asin in Hs by lra.
  pose proof sin_quarter. lra.
Qed.

(** Every constructed instance has the same geometry. *)
Lemma init_geometry (vb : option bool) (mach : option R) :
  let self := __init__ vb mach in
  nose_cone_length self = 1.333 /\
  body_tube_length self = 5.333 /\
  radius self = 0.1666 /\
  boat_tail_radius self = 0.1666 /\
  diameter self = 2 * 0.1666 /\
  K self = 0.0004 /\
  number_of_fins self = 4 /\
  fin_length self = 0.333 /\
  fin_height_long self = 1 /\
  fin_height_short self = 0.333 /\
  fin_thickness self = 0.0833 /\
  x self = 0.333 / 8 /\
  K_f self = 1.04.
Proof. repeat split. Qed.

Lemma init_S_B_pos (vb : option bool) (mach : option R) :
  0 < S_B (__init__ vb mach).
Proof.
  cbn [S_B __init__].
  assert (Ha := init_a_bounds).
  assert (Hx := init_asin_domain).
  assert (Hasin : asin (1.333 / init_a 0.1666 1.333) < 0.25).
  { apply asin_below_quarter. lra. }
  assert (Hpi := PI_RGT_0).
  apply Rmult_lt_0_compat; [lra|].
  nra.
Qed.

(** Airspeed and Mach number stay in the fixed ratio. *)
Lemma init_M_velocity (vb : option bool) (mach : option R) :
  let self := __init__ vb mach in
  M self = mach_per_fps * velocity self.
Proof.
  cbn [M velocity __init__].
  assert (Hc := mach_per_fps_pos).
  destruct mach as [m|]; (destruct (Req_dec_T _ 0); cbn [fst snd]; [ring|field; lra]).
Qed.
End Geometry.

(* ----------------------------------------------------------------- *)
(** ** The taper-ratio correction on complex powers *)

Section Taper.

Import Drag Spec.

Lemma is_zero_polar (rho c s : R) :
  rho <> 0 -> c * c + s * s = 1 -> is_zero (rho * c, rho * s) = false.
Proof.
  intros Hrho Hunit. unfold is_zero; cbn [fst snd].
  destruct (Req_dec_T (rho * c) 0) as [Hc|Hc]; [|reflexivity].
  destruct (Req_dec_T (rho * s) 0) as [Hs|Hs]; [|reflexivity].
  exfalso.
  apply Rmult_integral in Hc. apply Rmult_integral in Hs.
  destruct Hc as [Hc|Hc]; [contradiction|].
  destruct Hs as [Hs|Hs]; [contradiction|].
  subst. lra.
Qed.

(** Division by a number of modulus [rho] on the unit direction [(c, s)]. *)
Lemma c_quot_polar (u v rho c s : R) :
  rho <> 0 -> c * c + s * s = 1 ->
  c_quot (u, v) (rho * c, rho * s)
  = Complex ((u * (rho * c) + v * (rho * s)) / (rho * rho))
            ((v * (rho * c) - u * (rho * s)) / (rho * rho)).
Proof.
  intros Hrho Hunit. unfold c_quot.
  rewrite is_zero_polar by assumption. cbn [fst snd].
  replace (rho * c * (rho * c) + rho * s * (rho * s))
    with (rho * rho * (c * c + s * s)) by ring.
  rewrite Hunit, Rmult_1_r. reflexivity.
Qed.

Lemma c_quot_real (u v d : R) :
  d <> 0 -> c_quot (u, v) (d, 0) = Complex (u / d) (v / d).
Proof.
  intros Hd. unfold c_quot, is_zero; cbn [fst snd].
  destruct (Req_dec_T d 0); [contradiction|].
  f_equal; field; exact Hd.
Qed.

(** The taper-ratio correction of [C_f_lambda] on complex powers of a common
    direction: the imaginary parts cancel and the real part is a quotient of
    the moduli. *)
Lemma taper_correction (cf l2 r1 r2 r3 r4 c s c' s' : R) :
  c * c + s * s = 1 -> c' = - c -> s' = - s ->
  r1 <> 0 -> r2 <> 0 -> r3 <> 0 -> r4 <> 0 -> l2 <> 1 ->
  real
    (py_mul
       (py_mul (Real cf)
          (py_div (Complex (r1 * c) (r1 * s)) (py_sub (Real l2) (Real 1))))
       (py_add
          (py_sub
             (py_div (Real l2) (Complex (r2 * c) (r2 * s)))
             (py_div (Real 1) (Complex (r1 * c) (r1 * s))))
          (py_mul (Real 0.5646)
             (py_sub
                (py_div (Real l2) (Complex (r4 * c') (r4 * s')))
                (py_div (Real 1) (Complex (r3 * c') (r3 * s')))))))
  = Real (cf * r1 / (l2 - 1) * (l2 / r2 - 1 / r1 - 0.5646 * (l2 / r4 - 1 / r3))).
Proof.
  intros Hunit Hc Hs H1 H2 H3 H4 Hl.
  assert (Hunit' : c' * c' + s' * s' = 1) by (subst; lra).
  cbn [py_mul py_div py_sub py_add arith].
  rewrite !c_quot_polar by assumption.
  rewrite c_quot_real by lra.
  cbn [py_mul py_div py_sub py_add arith c_prod c_diff c_sum fst snd real].
  subst c' s'. f_equal.
  transitivity
    (cf * r1 / (l2 - 1) * (l2 / r2 - 1 / r1 - 0.5646 * (l2 / r4 - 1 / r3))
     * (c * c + s * s)).
  - field. repeat split; try assumption. lra.
  - rewrite Hunit. ring.
Qed.

End Taper.

(* ----------------------------------------------------------------- *)
(** ** Evaluating the drag coefficient below Mach one *)

Section Evaluation.

Import Drag Spec.

(** Running a method body: each call returns its value and the instance
    unchanged. *)
Ltac exec :=
  repeat (rewrite value_bind by auto with frame; cbv beta);
  rewrite ?value_this, ?value_ret.

(** Arithmetic on real operands. *)
Ltac arith := cbn [py_add py_sub py_mul arith].

Ltac calc :=
  repeat progress
    (arith;
     rewrite ?py_pow_2, ?py_pow_3, ?py_pow_4, ?py_pow_5, ?py_pow_6;
     rewrite ?py_div_real by lra).

(** An instance with the constructor's geometry, flying below Mach one at
    an altitude where the speed of sound is below 1339 ft/s, and whose
    excrescence coefficient is positive. *)
Variable self : Rocket.
Variable h : R.

Hypothesis Hgeom : default_geometry self.
Hypothesis HSB : 0 < S_B self.
Hypothesis HMV : M self = mach_per_fps * velocity self.
Hypothesis HM : 0 < M self < 1.
Hypothesis Hsos : 0 < speed_of_sound h < 1339.
Hypothesis Hk : 0 < excrescence_k (M self).

Ltac geometry :=
  let G := fresh "G" in
  pose proof Hgeom as G;
  destruct G as (Hncl & Hbtl & Hrad & Hbtr & Hdia & HK & Hnf & Hfl & Hfhl & Hfhs
                 & Hft & Hx & HKf).

Lemma velocity_pos : 0 < velocity self.
Proof.
  assert (Hc := mach_per_fps_pos).
  destruct HM as [HM0 _]. rewrite HMV in HM0.
  apply Rmult_lt_reg_l with mach_per_fps; [exact Hc|]. lra.
Qed.

Lemma Rn_factor_pos : 0 < Rn_factor (M self).
Proof. unfold Rn_factor. nra. Qed.



Lemma Rn_star_pos : exists r : R, value (Rn_star h) self = Real r /\ 0 < r.
Proof.
  geometry. assert (Hv := velocity_pos). assert (Hf := Rn_factor_pos).
  unfold value. rewrite Rn_star_run. cbn [fst]. unfold Rn_star_spec.
  rewrite py_div_real by lra. arith.
  eexists; split; [reflexivity|].
  rewrite Hbtl, Hncl.
  apply Rmult_lt_0_compat; [|exact Hf].
  apply Rdiv_lt_0_compat; [|lra].
  repeat apply Rmult_lt_0_compat; lra.
Qed.

Lemma C_f_star_pos : exists r : R, value (C_f_star h) self = Real r /\ 0 < r.
Proof.
  destruct Rn_star_pos as (rn & Hrn & Hpos).
  unfold C_f_star. exec. rewrite Hrn.
  rewrite py_pow_pos by exact Hpos. arith.
  eexists; split; [reflexivity|].
  apply Rmult_lt_0_compat; [lra|apply Rpower_pos].
Qed.

Lemma C_f_real : exists r : R, value (C_f h) self = Real r.
Proof.
  destruct C_f_star_pos as (cfs & Hcfs & _).
  unfold C_f. exec. rewrite Hcfs.
  rewrite py_pow_2, py_pow_3, py_pow_4, py_pow_5. arith.
  eexists; reflexivity.
Qed.

Lemma C_f_term_star_pos : exists r : R, value C_f_term_star self = Real r /\ 0 < r.
Proof.
  geometry. unfold C_f_term_star. exec. rewrite Hbtl, Hncl, HK. arith.
  rewrite py_div_real by lra.
  rewrite log10_pos by lra. arith.
  assert (Hlg : 0 < ln ((5.333 + 1.333) / 0.0004) / ln 10).
  { apply log10_gt_1. lra. }
  rewrite py_pow_pos by lra.
  assert (Hp := Rpower_pos (1.89 + 1.62 * (ln ((5.333 + 1.333) / 0.0004) / ln 10)) 2.5).
  rewrite py_div_real by lra.
  eexists; split; [reflexivity|].
  apply Rdiv_lt_0_compat; lra.
Qed.

Lemma C_f_term_pos : exists r : R, value C_f_term self = Real r /\ 0 < r.
Proof.
  destruct C_f_term_star_pos as (cts & Hcts & Hpos).
  unfold C_f_term. exec. rewrite Hcts. rewrite py_pow_2. arith.
  assert (Hd : 0 < 1 + 0.2044 * M self ^ 2) by nra.
  rewrite py_div_real by lra.
  eexists; split; [reflexivity|].
  apply Rdiv_lt_0_compat; lra.
Qed.

Lemma value_branch_true (t e : Exec val) (s : Rocket) :
  value (branch (inr true) t e) s = value t s.
Proof. reflexivity. Qed.

Lemma value_branch_false (t e : Exec val) (s : Rocket) :
  value (branch (inr false) t e) s = value e s.
Proof. reflexivity. Qed.

Lemma C_f_final_pos : exists r : R, value (C_f_final h) self = Real r /\ 0 < r.
Proof.
  destruct C_f_real as (cf & Hcf).
  destruct C_f_term_pos as (ct & Hct & Hpos).
  unfold C_f_final. exec. rewrite Hcf, Hct.
  cbn [py_ge compare_with].
  destruct (Rge_dec cf ct) as [Hge|Hlt].
  - rewrite value_branch_true, Hcf. exists cf. split; [reflexivity|lra].
  - rewrite value_branch_false, Hct. exists ct. split; [reflexivity|lra].
Qed.

Lemma body_friction_drag_pos :
  exists r : R, value (body_friction_drag h) self = Real r /\ 0 < r.
Proof.
  geometry. destruct C_f_final_pos as (cff & Hcff & Hpos).
  assert (Hpi := PI_RGT_0).
  unfold body_friction_drag. exec. rewrite Hcff, Hbtl, Hncl, Hdia.
  arith. rewrite !py_div_real by lra. rewrite py_pow_3, py_pow_2. arith.
  rewrite py_div_real by lra. arith.
  assert (Hd : 0 < PI * (2 * 0.1666) ^ 2) by nra.
  rewrite py_div_real by lra. arith.
  eexists; split; [reflexivity|].
  apply Rmult_lt_0_compat.
  - apply Rmult_lt_0_compat; [exact Hpos|].
    assert (0 < 60 / ((5.333 + 1.333) / (2 * 0.1666)) ^ 3) by (apply Rdiv_lt_0_compat; lra).
    lra.
  - apply Rdiv_lt_0_compat; lra.
Qed.




Let Rn_fin : R := fin_reynolds h self.

Lemma Rn_fin_bounds : 0 < Rn_fin < / 10.
Proof.
  assert (Hv := velocity_pos).
  assert (Heq : Rn_fin = speed_of_sound h * mach_per_fps / 12).
  { unfold Rn_fin, fin_reynolds. rewrite HMV. field. lra. }
  rewrite Heq. unfold mach_per_fps. lra.
Qed.

Lemma R_n_value : value (R_n h) self = Real Rn_fin.
Proof.
  geometry. assert (Hv := velocity_pos).
  unfold R_n. exec. rewrite a_value, Hfhl. arith.
  rewrite py_div_real by lra. reflexivity.
Qed.

Lemma C_f_lambda_pos : exists r : R, value (C_f_lambda h) self = Real r /\ 0 < r.
Proof.
  geometry. destruct C_f_final_pos as (cff & Hcff & Hpos).
  assert (HRn := Rn_fin_bounds).
  unfold C_f_lambda. exec. rewrite Hcff, !R_n_value, Hfhs, Hfhl.
  rewrite !py_div_real by lra. rewrite !py_mul_real, py_pow_2.
  set (l := 0.333 / 1).
  assert (Hl : l = 0.333) by (unfold l; lra).
  assert (Hlg : ln Rn_fin / ln 10 < -1) by (apply log10_lt_tenth; lra).
  assert (Hlgl : ln (Rn_fin * l) / ln 10 < ln Rn_fin / ln 10).
  { assert (H10 := ln_10_pos).
    apply Rmult_lt_compat_r; [apply Rinv_0_lt_compat; lra|].
    apply ln_increasing; nra. }
  rewrite !log10_pos by nra.
  rewrite !py_pow_real.
  rewrite !float_pow_neg_frac by (first [lra | apply (fractional 2); lra | apply (fractional 3); lra]).
  cbn [assigned].
  set (lg := ln Rn_fin / ln 10) in *.
  set (lgl := ln (Rn_fin * l) / ln 10) in *.
  rewrite (taper_correction cff (l ^ 2)
             (Rpower (- lg) 2.6) (Rpower (- lgl) 2.6)
             (Rpower (- lg) 3.6) (Rpower (- lgl) 3.6)
             (cos (PI * 2.6)) (sin (PI * 2.6))
             (cos (PI * 3.6)) (sin (PI * 3.6))).
  - eexists; split; [reflexivity|].
    assert (P1 := Rpower_pos (- lg) 2.6).
    assert (P2 := Rpower_pos (- lgl) 2.6).
    assert (P3 := Rpower_pos (- lg) 3.6).
    assert (P4 := Rpower_pos (- lgl) 3.6).
    assert (H12 : Rpower (- lg) 2.6 < Rpower (- lgl) 2.6).
    { apply Rlt_Rpower_l; lra. }
    assert (H13 : Rpower (- lg) 2.6 < Rpower (- lg) 3.6).
    { apply Rpower_lt; lra. }
    set (r1 := Rpower (- lg) 2.6) in *.
    set (r2 := Rpower (- lgl) 2.6) in *.
    set (r3 := Rpower (- lg) 3.6) in *.
    set (r4 := Rpower (- lgl) 3.6) in *.
    assert (Hl2 : l ^ 2 = 0.110889) by (rewrite Hl; lra).
    rewrite Hl2.
    assert (I1 : / r2 < / r1) by (apply Rinv_lt_contravar; nra).
    assert (I3 : / r3 < / r1) by (apply Rinv_lt_contravar; nra).
    assert (I4 : 0 < / r4) by (apply Rinv_0_lt_compat; lra).
    assert (I0 : 0 < / r1) by (apply Rinv_0_lt_compat; lra).
    assert (HX : 0.110889 / r2 - 1 / r1 - 0.5646 * (0.110889 / r4 - 1 / r3) < 0).
    { unfold Rdiv. nra. }
    assert (HP : cff * r1 / (0.110889 - 1) < 0).
    { unfold Rdiv.
      assert (0 < cff * r1) by (apply Rmult_lt_0_compat; lra).
      assert (/ (0.110889 - 1) < 0) by (apply Rinv_lt_0_compat; lra).
      nra. }
    nra.
  - rewrite <- (sin2_cos2 (PI * 2.6)). unfold Rsqr. ring.
  - replace (PI * 3.6) with (PI * 2.6 + PI) by lra. apply neg_cos.
  - replace (PI * 3.6) with (PI * 2.6 + PI) by lra. apply neg_sin.
  - apply Rgt_not_eq, Rpower_pos.
  - apply Rgt_not_eq, Rpower_pos.
  - apply Rgt_not_eq, Rpower_pos.
  - apply Rgt_not_eq, Rpower_pos.
  - rewrite Hl. lra.
Qed.

Lemma fin_friction_drag_pos :
  exists r : R, value (fin_friction_drag h) self = Real r /\ 0 < r.
Proof.
  geometry. destruct C_f_lambda_pos as (cfl & Hcfl & Hpos).
  assert (Hpi := PI_RGT_0).
  unfold fin_friction_drag. exec.
  rewrite Hcfl, Hft, Hfhl, Hx, Hnf, Hfl, Hfhs, Hdia.
  assert (Hd : 0 < PI * (2 * 0.1666) ^ 2) by nra.
  calc.
  eexists; split; [reflexivity|].
  apply Rmult_lt_0_compat; [exact Hpos|].
  assert (0 < 4 * 4 * (0.333 / (1 + 0.333)) / (PI * (2 * 0.1666) ^ 2)).
  { apply Rdiv_lt_0_compat; lra. }
  assert (0 < 0.8 * (1 + 5 * (0.333 / 8 / 1) ^ 2) * (0.0833 / 1)) by lra.
  assert (0 < 60 * (0.0833 / 1) ^ 4) by lra.
  nra.
Qed.


Lemma excrescencies_friction_drag_pos :
  exists r : R, value excrescencies_friction_drag self = Real r /\ 0 < r.
Proof.
  geometry. assert (Hpi := PI_RGT_0).
  assert (Hd : 0 < PI * (2 * 0.1666) ^ 2) by nra.
  assert (Hval : value excrescencies_friction_drag self
                 = Real (excrescence_k (M self) * 4 * S_B self
                         / (PI * (2 * 0.1666) ^ 2))).
  { unfold excrescencies_friction_drag, excrescence_k. exec. rewrite Hrad.
    cbn [py_lt py_le compare_with].
    destruct (Rlt_dec (M self) 0.78); cbn [py_if]; [calc; reflexivity|].
    destruct (Rle_dec (M self) 1.04); cbn [py_if]; calc; reflexivity. }
  rewrite Hval. eexists; split; [reflexivity|].
  apply Rdiv_lt_0_compat; [|exact Hd].
  apply Rmult_lt_0_compat; [|exact HSB]. lra.
Qed.

Lemma skin_friction_drag_pos :
  exists r : R, value (skin_friction_drag h) self = Real r /\ 0 < r.
Proof.
  geometry.
  destruct body_friction_drag_pos as (bfd & Hbfd & Hb).
  destruct fin_friction_drag_pos as (ffd & Hffd & Hf).
  destruct excrescencies_friction_drag_pos as (efd & Hefd & He).
  assert (Hp : value protuberance_friction_drag self = Real 0) by reflexivity.
  unfold skin_friction_drag. exec.
  rewrite Hbfd, Hffd, Hefd, Hp, HKf.
  assert (Hshown :
            value (if verbose self
                   then bind (body_friction_drag h) (fun b =>
                        bind (fin_friction_drag h) (fun f =>
                        bind protuberance_friction_drag (fun p =>
                        ret (print [b; f; p]))))
                   else ret None) self = None).
  { destruct (verbose self); [|reflexivity].
    exec. rewrite Hbfd, Hffd, Hp. reflexivity. }
  rewrite Hshown. cbn [after]. calc.
  eexists; split; [reflexivity|]. nra.
Qed.

Lemma K_b_pos : exists r : R, value K_b self = Real r /\ 0 < r.
Proof.
  geometry. unfold K_b. exec. rewrite Hbtl, Hdia. calc.
  cbn [py_atan]. calc.
  eexists; split; [reflexivity|].
  apply Rmult_lt_0_compat; [lra|].
  rewrite <- atan_0. apply atan_increasing. lra.
Qed.

Lemma n_real : exists r : R, value n self = Real r.
Proof.
  geometry. unfold n. exec. rewrite Hbtl, Hdia. calc.
  rewrite py_pow_pos by lra. calc.
  eexists; reflexivity.
Qed.

Lemma base_drag_pos : exists r : R, value (base_drag h) self = Real r /\ 0 < r.
Proof.
  geometry.
  destruct skin_friction_drag_pos as (sfd & Hsfd & Hs).
  assert (Hrun : value (base_drag h) self = base_drag_spec h self).
  { unfold value. now rewrite base_drag_run. }
  rewrite Hrun. unfold base_drag_spec.
  rewrite Hsfd, Hbtl, Hdia, Hbtr, Hrad. calc.
  rewrite !py_pow_pos by lra. calc.
  cbn [py_atan py_sqrt].
  destruct (Rle_dec 0 sfd); [|lra].
  assert (Hsq : 0 < sqrt sfd) by (apply sqrt_lt_R0; exact Hs).
  rewrite py_div_real by lra. calc.
  set (ratio := Rpower (0.1666 / 0.1666)
                  (3.6542 * Rpower (5.333 / (2 * 0.1666)) (-0.2733))).
  assert (Hratio : 0 < ratio) by apply Rpower_pos.
  assert (Hatan : 0 < atan (5.333 / (2 * 0.1666) + 0.0116)).
  { rewrite <- atan_0. apply atan_increasing. lra. }
  assert (Hun : 0 < 0.0274 * atan (5.333 / (2 * 0.1666) + 0.0116)
                    * (ratio / sqrt sfd)).
  { apply Rmult_lt_0_compat; [lra|]. apply Rdiv_lt_0_compat; lra. }
  unfold regime_multiplier.
  destruct (Rle_dec (M self) 0.6).
  - eexists; split; [reflexivity|exact Hun].
  - destruct (Rlt_dec (M self) 1); [|lra]. calc.
    eexists; split; [reflexivity|].
    apply Rmult_lt_0_compat; [exact Hun|].
    assert (0 <= (M self - 0.6) ^ 6) by (apply pow_le; lra).
    lra.
Qed.

Lemma C_d_max_pos : exists r : R, value C_d_max self = Real r /\ 0 < r.
Proof.
  geometry. unfold C_d_max. exec. rewrite Hncl, Hbtl, Hrad. calc.
  cbn [assigned py_gt compare_with].
  destruct (Rgt_dec ((1.333 + 5.333) / (2 * 0.1666)) 6); [|lra].
  cbn [py_if]. rewrite py_pow_pos by lra. calc.
  eexists; split; [reflexivity|].
  apply Rmult_lt_0_compat; [lra|apply Rpower_pos].
Qed.

Lemma M_f_real : exists r : R, value M_f self = Real r.
Proof.
  geometry. unfold M_f. exec. rewrite Hncl, Hbtl, Hrad. calc.
  cbn [py_lt compare_with].
  destruct (Rlt_dec (1.333 / (1.333 + 5.333)) 0.2); [|lra].
  cbn [py_if]. rewrite py_pow_pos by lra. calc.
  eexists; reflexivity.
Qed.

Lemma transonic_wave_drag_nonneg :
  exists r : R, value transonic_wave_drag self = Real r /\ 0 <= r.
Proof.
  geometry.
  destruct M_f_real as (mf & Hmf).
  destruct C_d_max_pos as (cd & Hcd & Hpos).
  unfold transonic_wave_drag. exec.
  unfold M_d at 1. exec. rewrite Hncl, Hrad. calc.
  cbn [py_le compare_with].
  destruct (Rle_dec _ (M self)).
  - rewrite value_branch_true. exec. rewrite Hmf.
    cbn [py_le compare_with].
    destruct (Rle_dec (M self) mf).
    + rewrite value_branch_true, Hcd. exists cd. split; [reflexivity|lra].
    + rewrite value_branch_false. exists 0. split; [reflexivity|lra].
  - rewrite value_branch_false. exists 0. split; [reflexivity|lra].
Qed.

(** The drag coefficient of an instance with the default geometry below
    Mach one is a positive real number. *)
Lemma drag_coefficient_pos :
  exists r : R, value (drag_coefficient h) self = Real r /\ 0 < r.
Proof.
  destruct skin_friction_drag_pos as (sfd & Hsfd & Hs).
  destruct base_drag_pos as (bd & Hbd & Hb).
  destruct transonic_wave_drag_nonneg as (twd & Htwd & Ht).
  assert (Hswd : value supersonic_wave_drag self = Real 0) by reflexivity.
  unfold drag_coefficient. exec.
  rewrite Hsfd, Hbd, Htwd, Hswd.
  assert (Hshown :
            value (if verbose self || true
                   then bind (skin_friction_drag h) (fun s =>
                        bind (base_drag h) (fun b =>
                        bind transonic_wave_drag (fun t =>
                        bind supersonic_wave_drag (fun w =>
                        ret (print [s; b; t; w])))))
                   else ret None) self = None).
  { rewrite orb_true_r. exec. rewrite Hsfd, Hbd, Htwd, Hswd. reflexivity. }
  rewrite Hshown. cbn [after]. calc.
  eexists; split; [reflexivity|]. lra.
Qed.

End Evaluation.

(* ----------------------------------------------------------------- *)
(** ** The Mach sweep of the driver *)

Section Sweep.

Import Drag Driver Spec.

Lemma INR_literal (i : nat) : INR i = IZR (Z.of_nat i).
Proof. apply INR_IZR_INZ. Qed.

Lemma sweep_M (i : nat) :
  (0 < i)%nat -> M (sweep_instance i) = INR i * 0.01.
Proof.
  intros Hi. unfold sweep_instance. cbn [M __init__].
  assert (0 < INR i) by (apply lt_0_INR; exact Hi).
  destruct (Req_dec_T (INR i * 0.01) 0); [lra|reflexivity].
Qed.

Lemma sweep_M_zero : M (sweep_instance 0) = 143.4 * mach_per_fps.
Proof.
  unfold sweep_instance. cbn [M __init__ INR].
  destruct (Req_dec_T (0 * 0.01) 0); [reflexivity|lra].
Qed.

Lemma sweep_M_bounds (i : nat) : (i < 100)%nat -> 0 < M (sweep_instance i) < 1.
Proof.
  intros Hi. destruct i as [|i].
  - rewrite sweep_M_zero. unfold mach_per_fps. lra.
  - rewrite sweep_M by lia.
    assert (0 < INR (S i)) by (apply lt_0_INR; lia).
    assert (INR (S i) < INR 100) by (apply lt_INR; exact Hi).
    rewrite (INR_literal 100) in *. simpl in *. lra.
Qed.

Lemma excrescence_k_low (m : R) : m < 0.78 -> excrescence_k m = 0.00038.
Proof.
  intros Hm. unfold excrescence_k. destruct (Rlt_dec m 0.78); [reflexivity|lra].
Qed.

Lemma excrescence_k_mid (m : R) :
  0.78 <= m <= 1.04 ->
  excrescence_k m
  = -0.4501 * m ^ 4 + 1.5954 * m ^ 3 - 2.1062 * m ^ 2 + 1.2288 * m - 0.26717.
Proof.
  intros Hm. unfold excrescence_k.
  destruct (Rlt_dec m 0.78); [lra|].
  destruct (Rle_dec m 1.04); [reflexivity|lra].
Qed.

(** The excrescence coefficient is positive at each Mach number of the
    sweep: constant up to 0.77, and by evaluation of the polynomial at each
    of 0.78, ..., 0.99. *)
Lemma sweep_excrescence_k_pos (i : nat) :
  (i < 100)%nat -> 0 < excrescence_k (M (sweep_instance i)).
Proof.
  intros Hi.
  destruct (Nat.lt_ge_cases i 78) as [Hlow|Hhigh].
  - rewrite excrescence_k_low; [lra|].
    destruct i as [|i].
    + rewrite sweep_M_zero. unfold mach_per_fps. lra.
    + rewrite sweep_M by lia.
      assert (INR (S i) < INR 78) by (apply lt_INR; exact Hlow).
      rewrite (INR_literal 78) in *. simpl in *. lra.
  - rewrite sweep_M by lia. rewrite INR_literal.
    assert (Hcases : exists j : nat, (j < 22)%nat /\ i = (78 + j)%nat).
    { exists (i - 78)%nat. lia. }
    destruct Hcases as (j & Hj & ->).
    do 22 (destruct j as [|j];
           [simpl Z.of_nat; rewrite excrescence_k_mid by lra; lra|]).
    lia.
Qed.

Lemma speed_of_sound_500 : speed_of_sound 500 = 1114.45.
Proof.
  unfold speed_of_sound, a_low. destruct (Rle_dec 500 37000); lra.
Qed.

(** Each rocket of the sweep has a positive real drag coefficient at 500 ft. *)
Lemma sweep_drag_pos (i : nat) :
  (i < 100)%nat ->
  exists r : R,
    value (drag_coefficient height) (sweep_instance i) = Real r /\ 0 < r.
Proof.
  intros Hi. unfold height. apply drag_coefficient_pos.
  - apply init_geometry.
  - apply init_S_B_pos.
  - apply init_M_velocity.
  - apply sweep_M_bounds; exact Hi.
  - rewrite speed_of_sound_500. lra.
  - apply sweep_excrescence_k_pos; exact Hi.
Qed.

Lemma fold_append_map {A B : Type} (f : A -> B) (l : list A) :
  forall acc : list B,
    fold_left (fun acc x => acc ++ [f x]) l acc = acc ++ map f l.
Proof.
  induction l as [|y l IH]; intros acc; simpl.
  - now rewrite app_nil_r.
  - rewrite IH, <- app_assoc. reflexivity.
Qed.

Lemma drags_map :
  drags = map (fun i => value (drag_coefficient height) (sweep_instance i))
              (seq 0 100).
Proof.
  unfold drags, machs.
  rewrite (fold_append_map
             (fun emach => fst (drag_coefficient height
                                  (__init__ (Some false) (Some emach))))).
  rewrite map_map. reflexivity.
Qed.

(** C2: for every [i] from 0 to 99 the rocket built for Mach [0.01 i] has a
    drag coefficient at 500 ft that is a real number (no exception is raised
    and no complex value escapes) and is not negative; the sweep collects
    exactly 100 such values. *)
Theorem sweep_drag_coefficients :
  (forall i : nat,
     (i <= 99)%nat ->
     nonneg_real
       (value (drag_coefficient 500) (__init__ (Some false) (Some (INR i * 0.01))))) /\
  List.length drags = 100%nat /\
  Forall nonneg_real drags.
Proof.
  assert (Hall : forall i : nat, (i <= 99)%nat ->
            nonneg_real (value (drag_coefficient height) (sweep_instance i))).
  { intros i Hi. destruct (sweep_drag_pos i) as (r & Hr & Hpos); [lia|].
    exists r. split; [exact Hr|lra]. }
  split; [exact Hall|].
  rewrite drags_map. split.
  - now rewrite length_map, length_seq.
  - apply Forall_forall. intros u Hu.
    apply in_map_iff in Hu. destruct Hu as (i & <- & Hin).
    apply in_seq in Hin. apply Hall. lia.
Qed.

Lemma sweep_drag_coefficients_witness :
  nonneg_real
    (value (drag_coefficient 500) (__init__ (Some false) (Some (INR 50 * 0.01)))).
Proof.
  apply (proj1 sweep_drag_coefficients 50%nat). lia.
Defined.

End Sweep.

(* ================================================================= *)
(** * Part IV: further properties of the code *)
(* ================================================================= *)

(* ----------------------------------------------------------------- *)
(** ** Leaving the main loop, and the simulation block *)

Section MainProcessExit.

Import Avionics.

Variable Env : Type.
Variable act : World Env -> World Env.
Variable activate_hook : string -> World Env -> World Env.
Variable print_debug : World Env -> World Env.
Variable input : string -> World Env -> World Env.

Let body := loop_body Env act activate_hook print_debug input.
Let step := loop_step Env act activate_hook print_debug input.
Let run := main_process Env act activate_hook print_debug input.
Let after_iterations := iterations Env act activate_hook print_debug input.
Let sim := sim_block Env activate_hook input.

Lemma run_returns (fuel : nat) :
  forall w w' : World Env,
    run fuel w = Some w' ->
    exists k : nat,
      (k < fuel)%nat /\ w' = after_iterations k w /\
      loop_guard (conf w') = false /\
      forall j, (j < k)%nat -> loop_guard (conf (after_iterations j w)) = true.
Proof.
  induction fuel as [|fuel IH]; intros w w' Hrun; [discriminate|].
  unfold run in Hrun; simpl in Hrun. unfold loop_step in Hrun.
  destruct (loop_guard (conf w)) eqn:Hguard.
  - destruct (IH _ _ Hrun) as (k & Hk & Hw' & Hstop & Hbefore).
    exists (S k). split; [lia|]. split; [exact Hw'|]. split; [exact Hstop|].
    intros [|j] Hj; [exact Hguard|]. apply Hbefore. lia.
  - injection Hrun as <-. exists 0%nat.
    split; [lia|]. split; [reflexivity|]. split; [exact Hguard|].
    intros j Hj. lia.
Qed.

(** X1: whenever [main_process] returns, the configuration it leaves has
    [shutdown] set and [FIDI] clear; the world returned is the one reached
    after some number of iterations, before each of which [shutdown] was
    false or [FIDI] true. *)
Theorem main_process_returns_shut_down :
  forall (fuel : nat) (w w' : World Env),
    run fuel w = Some w' ->
    shutdown (conf w') = true /\ FIDI (conf w') = false /\
    exists k : nat,
      (k < fuel)%nat /\ w' = after_iterations k w /\
      forall j, (j < k)%nat ->
        shutdown (conf (after_iterations j w)) = false \/
        FIDI (conf (after_iterations j w)) = true.
Proof.
  intros fuel w w' Hrun.
  destruct (run_returns fuel w w' Hrun) as (k & Hk & Hw' & Hstop & Hbefore).
  apply loop_guard_false_iff in Hstop. destruct Hstop as [Hs Hf].
  split; [exact Hs|]. split; [exact Hf|].
  exists k. split; [exact Hk|]. split; [exact Hw'|].
  intros j Hj. apply loop_guard_iff. now apply Hbefore.
Qed.

(** X2: when hooks and operator prompts leave the configuration alone, the
    simulation block turns the state IDLE into ARM and changes nothing else
    of the configuration, so the state machine never acts on IDLE in
    simulation mode. *)
Theorem sim_block_arms :
  (forall (name : string) (w : World Env), conf (activate_hook name w) = conf w) ->
  (forall (prompt : string) (w : World Env), conf (input prompt w) = conf w) ->
  forall w : World Env,
    conf (sim w)
    = (if String.eqb (state (conf w)) "IDLE" then set_state "ARM" (conf w)
       else conf w) /\
    state (conf (sim w)) <> "IDLE"%string.
Proof.
  intros Hhook Hinput w.
  assert (Hconf :
            conf (sim w)
            = (if String.eqb (state (conf w)) "IDLE" then set_state "ARM" (conf w)
               else conf w)).
  { unfold sim, sim_block, when.
    destruct (String.eqb (state (conf w)) "IDLE") eqn:Hidle.
    - repeat match goal with
             | |- context [if ?b then _ else _] => destruct b
             end; rewrite ?Hinput, ?Hhook; reflexivity.
    - repeat match goal with
             | |- context [if ?b then _ else _] => destruct b
             end; rewrite ?Hinput; reflexivity. }
  split; [exact Hconf|].
  rewrite Hconf.
  destruct (String.eqb (state (conf w)) "IDLE") eqn:Hidle.
  - simpl. discriminate.
  - apply String.eqb_neq. exact Hidle.
Qed.

End MainProcessExit.

Lemma main_process_returns_shut_down_witness :
  Avionics.shutdown (Avionics.conf (Spec.act_shutdown Spec.idle_world)) = true /\
  Avionics.FIDI (Avionics.conf (Spec.act_shutdown Spec.idle_world)) = false /\
  exists k : nat,
    (k < 3)%nat /\
    Spec.act_shutdown Spec.idle_world
    = Avionics.iterations unit Spec.act_shutdown (fun _ w => w) (fun w => w)
        (fun _ w => w) k Spec.idle_world /\
    forall j, (j < k)%nat ->
      Avionics.shutdown
        (Avionics.conf
           (Avionics.iterations unit Spec.act_shutdown (fun _ w => w)
              (fun w => w) (fun _ w => w) j Spec.idle_world)) = false \/
      Avionics.FIDI
        (Avionics.conf
           (Avionics.iterations unit Spec.act_shutdown (fun _ w => w)
              (fun w => w) (fun _ w => w) j Spec.idle_world)) = true.
Proof.
  apply (main_process_returns_shut_down unit Spec.act_shutdown (fun _ w => w)
           (fun w => w) (fun _ w => w) 3 Spec.idle_world).
  reflexivity.
Defined.

Lemma sim_block_arms_witness :
  Avionics.conf
    (Avionics.sim_block unit (fun _ w => w) (fun _ w => w) Spec.idle_world)
  = (if String.eqb (Avionics.state (Avionics.conf Spec.idle_world)) "IDLE"
     then Avionics.set_state "ARM" (Avionics.conf Spec.idle_world)
     else Avionics.conf Spec.idle_world) /\
  Avionics.state
    (Avionics.conf
       (Avionics.sim_block unit (fun _ w => w) (fun _ w => w) Spec.idle_world))
  <> "IDLE"%string.
Proof.
  apply (sim_block_arms unit (fun _ w => w) (fun _ w => w)); reflexivity.
Defined.

(* ----------------------------------------------------------------- *)
(** ** More on the reference-data filter *)

Section FilterMore.

Import Drag Driver Spec.

Let on_row (f : Filter) (row : Row) : Filter :=
  if cell_gtb (last_mach f) (Mach_Number row) then f
  else {| machs2 := machs2 f ++ [Mach_Number row];
          drags2 := drags2 f ++ [CD row];
          last_height := Altitude_ft row;
          last_mach := Mach_Number row |}.

(** The variables of the loop when it ends, in terms of the retained rows. *)
Lemma filter_loop_result (p : list Row) :
  exists f : Filter,
    filter_loop p = Some f /\
    machs2 f = map Mach_Number (retained_from (Num (-100)) p) /\
    drags2 f = map CD (retained_from (Num (-100)) p).
Proof.
  exists (fold_left on_row p filter_init).
  split; [apply filter_loop_traverse|].
  apply (on_rows_retained p filter_init).
Qed.





(** The rows a pass retains meet the test of the filter one after the
    other, with or without missing cells. *)
Lemma retained_unexceeded (rows : list Row) :
  forall last : Cell,
    unexceeded_from last (map Mach_Number (retained_from last rows)) = true.
Proof.
  induction rows as [|row rows IH]; intros last; simpl; [reflexivity|].
  destruct (cell_gtb last (Mach_Number row)) eqn:Hgt; simpl.
  - apply IH.
  - rewrite Hgt. simpl. apply IH.
Qed.

(** Rows that meet the test one after the other are all retained. *)
Lemma retained_all (rows : list Row) :
  forall last : Cell,
    unexceeded_from last (map Mach_Number rows) = true ->
    retained_from last rows = rows.
Proof.
  induction rows as [|row rows IH]; intros last Hnd; simpl in *; [reflexivity|].
  apply andb_true_iff in Hnd. destruct Hnd as [Hle Hrest].
  apply negb_true_iff in Hle. rewrite Hle. f_equal. now apply IH.
Qed.

Lemma cell_leb_not_gtb (x y : Cell) :
  cell_leb x y = true -> cell_gtb x y = false.
Proof.
  destruct x, y; simpl; intros H; try discriminate; try reflexivity.
  unfold Qgtb. now rewrite H.
Qed.

Lemma nondecreasing_unexceeded (l : list Cell) :
  forall last : Cell,
    nondecreasing_from last l = true -> unexceeded_from last l = true.
Proof.
  induction l as [|m l IH]; intros last H; simpl in *; [reflexivity|].
  apply andb_true_iff in H. destruct H as [Hle Hrest].
  rewrite (cell_leb_not_gtb last m Hle). simpl. now apply IH.
Qed.

Lemma filter_loop_unexceeded (p : list Row) :
  unexceeded_from (Num (-100)) (map Mach_Number p) = true ->
  exists f : Filter,
    filter_loop p = Some f /\
    machs2 f = map Mach_Number p /\
    drags2 f = map CD p.
Proof.
  intros Hnd. destruct (filter_loop_result p) as (f & Hrun & Hm & Hd).
  exists f. rewrite (retained_all p (Num (-100)) Hnd) in Hm, Hd. auto.
Qed.

(** X4: a table whose Mach numbers never decrease, starting at -100 or
    above, passes the filter whole. *)
Theorem filter_keeps_nondecreasing_table :
  forall p : list Row,
    nondecreasing_from (Num (-100)) (map Mach_Number p) = true ->
    exists f : Filter,
      filter_loop p = Some f /\
      machs2 f = map Mach_Number p /\
      drags2 f = map CD p.
Proof.
  intros p Hnd. now apply filter_loop_unexceeded, nondecreasing_unexceeded.
Qed.

Lemma filter_keeps_nondecreasing_table_witness :
  exists f : Filter,
    filter_loop (map row_of_mach [0.1; 0.3; 0.5]%Q) = Some f /\
    machs2 f = map Mach_Number (map row_of_mach [0.1; 0.3; 0.5]%Q) /\
    drags2 f = map CD (map row_of_mach [0.1; 0.3; 0.5]%Q).
Proof.
  apply (filter_keeps_nondecreasing_table (map row_of_mach [0.1; 0.3; 0.5]%Q)).
  reflexivity.
Defined.

(** X5: filtering is idempotent: the rows a pass retains are all retained by
    a second pass over them. *)
Theorem filter_idempotent :
  forall p : list Row,
    exists (f f' : Filter) (kept : list Row),
      filter_loop p = Some f /\
      machs2 f = map Mach_Number kept /\
      drags2 f = map CD kept /\
      filter_loop kept = Some f' /\
      machs2 f' = machs2 f /\
      drags2 f' = drags2 f.
Proof.
  intros p. destruct (filter_loop_result p) as (f & Hrun & Hm & Hd).
  destruct (filter_loop_unexceeded (retained_from (Num (-100)) p))
    as (f' & Hrun' & Hm' & Hd').
  { apply retained_unexceeded. }
  exists f, f', (retained_from (Num (-100)) p).
  rewrite Hm, Hd. auto 10.
Qed.

Lemma last_cons {A : Type} (l : list A) :
  forall x d : A, List.last (x :: l) d = List.last l x.
Proof.
  induction l as [|y l IH]; intros x d; [reflexivity|].
  change (List.last (x :: y :: l) d) with (List.last (y :: l) d).
  rewrite (IH y d), (IH y x). reflexivity.
Qed.

(** The loop variables along the traversal. *)
Lemma on_rows_last (rows : list Row) :
  forall f : Filter,
    last_mach (fold_left on_row rows f)
      = last (map Mach_Number (retained_from (last_mach f) rows)) (last_mach f) /\
    last_height (fold_left on_row rows f)
      = last (map Altitude_ft (retained_from (last_mach f) rows)) (last_height f).
Proof.
  induction rows as [|row rows IH]; intros f; [split; reflexivity|].
  cbn [fold_left retained_from].
  unfold on_row at 2 4.
  destruct (cell_gtb (last_mach f) (Mach_Number row)).
  - apply IH.
  - destruct (IH {| machs2 := machs2 f ++ [Mach_Number row];
                    drags2 := drags2 f ++ [CD row];
                    last_height := Altitude_ft row;
                    last_mach := Mach_Number row |}) as [Hm Hh].
    cbn [last_mach last_height] in Hm, Hh. rewrite Hm, Hh.
    cbn [map]. rewrite !last_cons. split; reflexivity.
Qed.

Lemma cell_leb_refl (x : Cell) : missing x = false -> cell_leb x x = true.
Proof.
  destruct x; simpl; intros H; try discriminate; try reflexivity.
  apply Qle_bool_iff, Qle_refl.
Qed.

Lemma cell_leb_trans (x y z : Cell) :
  cell_leb x y = true -> cell_leb y z = true -> cell_leb x z = true.
Proof.
  destruct x, y, z; simpl; intros Hxy Hyz; try discriminate; try reflexivity.
  apply Qle_bool_iff in Hxy, Hyz. apply Qle_bool_iff.
  eapply Qle_trans; eassumption.
Qed.

(** Without a missing Mach cell, the retained Mach numbers lie between the
    Mach number retained before them and the one retained last. *)
Lemma retained_bounds (rows : list Row) :
  forall last : Cell,
    missing last = false ->
    complete (map Mach_Number rows) = true ->
    Forall (fun m => cell_leb last m = true)
           (map Mach_Number (retained_from last rows)) /\
    Forall (fun m =>
              cell_leb m (List.last (map Mach_Number (retained_from last rows)) last)
              = true)
           (map Mach_Number (retained_from last rows)).
Proof.
  induction rows as [|row rows IH]; intros last Hlast Hrows;
    cbn [retained_from].
  - split; constructor.
  - cbn [map complete forallb] in Hrows.
    apply andb_true_iff in Hrows. destruct Hrows as [Hrow Hrows].
    apply negb_true_iff in Hrow.
    rewrite (cell_gtb_leb last (Mach_Number row) Hlast Hrow).
    destruct (cell_leb last (Mach_Number row)) eqn:Hle; cbn [negb];
      [|now apply IH].
    destruct (IH (Mach_Number row) Hrow Hrows) as [Hlo Hhi].
    cbn [map]. split.
    + constructor; [exact Hle|].
      eapply Forall_impl; [|exact Hlo].
      intros m Hm. cbv beta in Hm. eapply cell_leb_trans; eassumption.
    + destruct (retained_from (Mach_Number row) rows) as [|r rs] eqn:Hkept.
      * constructor; [now apply cell_leb_refl|constructor].
      * cbn [map] in *. rewrite last_cons.
        constructor; [|exact Hhi].
        inversion Hlo as [|? ? Hr ?]; subst.
        inversion Hhi as [|? ? Hr' ?]; subst.
        eapply cell_leb_trans; eassumption.
Qed.

(** X6: when the loop ends, [last_mach] is the Mach number retained last, or
    the initial -100 when no row was retained, and [last_height] the altitude
    of that row, or -5.  On a table without a missing Mach cell, every
    retained Mach number lies between -100 and [last_mach]; with one it need
    not: [0.5, blank, 0.2] is retained whole and ends with [last_mach] at
    0.2. *)
Theorem filter_last_is_maximum :
  (forall p : list Row,
     exists f : Filter,
       filter_loop p = Some f /\
       last_mach f = List.last (machs2 f) (Num (-100)) /\
       last_height f
         = List.last (map Altitude_ft (retained_from (Num (-100)) p)) (Num (-5)) /\
       (complete (map Mach_Number p) = true ->
        Forall (fun m => cell_leb (Num (-100)) m = true /\
                         cell_leb m (last_mach f) = true)
               (machs2 f))) /\
  option_map (fun f => (machs2 f, last_mach f)) (filter_loop blank_rows)
    = Some ([Num 0.5; NaN; Num 0.2], Num 0.2).
Proof.
  split; [|reflexivity].
  intros p. exists (fold_left on_row p filter_init).
  assert (Hm : machs2 (fold_left on_row p filter_init)
               = map Mach_Number (retained_from (Num (-100)) p))
    by apply (on_rows_retained p filter_init).
  destruct (on_rows_last p filter_init) as [Hl Hh].
  cbn [filter_init last_mach last_height] in Hl, Hh.
  split; [apply filter_loop_traverse|].
  rewrite Hm, Hl, Hh. split; [reflexivity|]. split; [reflexivity|].
  intros Hp.
  destruct (retained_bounds p (Num (-100)) eq_refl Hp) as [Hlo Hhi].
  apply Forall_forall. intros m Hin.
  rewrite Forall_forall in Hlo, Hhi. split; [now apply Hlo|now apply Hhi].
Qed.

Lemma filter_last_is_maximum_witness :
  exists f : Filter,
    filter_loop example_rows = Some f /\
    Forall (fun m => cell_leb (Num (-100)) m = true /\
                     cell_leb m (last_mach f) = true)
           (machs2 f).
Proof.
  destruct (proj1 filter_last_is_maximum example_rows)
    as (f & Hrun & _ & _ & Hb).
  exists f. split; [exact Hrun|]. apply Hb. reflexivity.
Defined.

End FilterMore.

(* ----------------------------------------------------------------- *)
(** ** The sweep's first point, the viscosity and the Reynolds numbers *)

Section DragMore.

Import Drag Driver Spec.

Lemma sweep_instance_zero : sweep_instance 0 = d.
Proof.
  unfold sweep_instance, d. cbn [INR].
  replace (0 * 0.01) with 0 by ring. reflexivity.
Qed.

(** X7: the first value of the sweep, plotted at Mach 0, is the drag
    coefficient of the default rocket that the driver prints at the end: the
    rocket built for Mach 0 flies at Mach [143.4 * 0.0008957066031914082]. *)
Theorem sweep_starts_at_default :
  nth_error drags 0 = Some r_C_d /\
  M (__init__ (Some false) (Some (INR 0 * 0.01))) = 143.4 * 0.0008957066031914082 /\
  exists r : R, r_C_d = Real r /\ 0 < r.
Proof.
  split; [|split].
  - rewrite drags_map. cbn [seq map nth_error].
    rewrite sweep_instance_zero. reflexivity.
  - change (M (sweep_instance 0) = 143.4 * mach_per_fps). apply sweep_M_zero.
  - unfold r_C_d. rewrite <- sweep_instance_zero.
    apply (sweep_drag_pos 0). lia.
Qed.

Lemma Rpower_e (y : R) : Rpower (exp 1) y = exp y.
Proof.
  unfold Rpower. rewrite ln_exp. f_equal. ring.
Qed.

(** X8: up to ten million feet above or below sea level the kinematic
    viscosity is [0.000157 e^(A h + B)] with [(A, B)] chosen by the altitude
    band, a positive real number, and the instance is left unchanged.  The
    exponent stays between -251 and 466 there, well inside the range on
    which the exponential of floats neither overflows nor vanishes. *)
Theorem v_positive :
  forall (self : Rocket) (h : R),
    -10000000 <= h <= 10000000 ->
    v h self = (Real (viscosity h), self) /\
    0 < viscosity h /\
    exists x : R, viscosity h = 0.000157 * exp x /\ -251 <= x <= 466.
Proof.
  intros self h Hh. split; [|split].
  - unfold v, ret, viscosity. f_equal.
    cbn [py_le compare_with].
    destruct (Rle_dec h 15000); cbn [py_if py_mul py_add arith].
    + rewrite py_pow_pos by apply exp_pos. rewrite Rpower_e. reflexivity.
    + destruct (Rle_dec h 30000); cbn [py_if py_mul py_add arith];
        rewrite py_pow_pos by apply exp_pos; rewrite Rpower_e; reflexivity.
  - unfold viscosity.
    destruct (Rle_dec h 15000); [|destruct (Rle_dec h 30000)];
      (apply Rmult_lt_0_compat; [lra|apply exp_pos]).
  - unfold viscosity.
    destruct (Rle_dec h 15000); [|destruct (Rle_dec h 30000)];
      (eexists; split; [reflexivity|lra]).
Qed.

Lemma v_positive_witness :
  v 500 d = (Real (viscosity 500), d) /\
  0 < viscosity 500 /\
  exists x : R, viscosity 500 = 0.000157 * exp x /\ -251 <= x <= 466.
Proof.
  apply (v_positive d 500). lra.
Defined.

Lemma init_velocity_nonzero (vb : option bool) (mach : option R) :
  velocity (__init__ vb mach) <> 0.
Proof.
  assert (Hc := mach_per_fps_pos).
  assert (HM := init_M_nonzero vb mach).
  rewrite init_M_velocity in HM. intros Hv. apply HM. rewrite Hv. ring.
Qed.

Lemma R_n_init (vb : option bool) (mach : option R) (h : R) :
  value (R_n h) (__init__ vb mach) = Real (speed_of_sound h * mach_per_fps / 12).
Proof.
  set (self := __init__ vb mach).
  assert (Hv : velocity self <> 0) by apply init_velocity_nonzero.
  assert (HMV : M self = mach_per_fps * velocity self) by apply init_M_velocity.
  unfold R_n, value, bind, this, ret. rewrite a_run. cbn [fst].
  cbn [py_mul arith]. rewrite py_div_real by lra.
  f_equal. rewrite HMV. subst self. cbn [fin_height_long __init__].
  field. exact Hv.
Qed.

Lemma Rn_star_init (vb : option bool) (mach : option R) (h : R) :
  value (Rn_star h) (__init__ vb mach)
  = Real (speed_of_sound h * mach_per_fps * (5.333 + 1.333) / 12
          * Rn_factor (M (__init__ vb mach))).
Proof.
  set (self := __init__ vb mach).
  assert (Hv : velocity self <> 0) by apply init_velocity_nonzero.
  assert (HMV : M self = mach_per_fps * velocity self) by apply init_M_velocity.
  unfold value. rewrite Rn_star_run. cbn [fst]. unfold Rn_star_spec.
  rewrite py_div_real by lra. cbn [py_mul arith].
  f_equal. f_equal. rewrite HMV. subst self.
  cbn [body_tube_length nose_cone_length __init__].
  field. exact Hv.
Qed.

(** X9: in a constructed instance the Mach number and the airspeed cancel:
    [R_n(h)] is [a(h) * 0.0008957066031914082 / 12] whatever Mach number was
    passed, and [Rn_star(h)] depends on it through its polynomial factor
    only. *)
Theorem reynolds_numbers_ignore_mach :
  forall (vb : option bool) (mach : option R) (h : R),
    let self := __init__ vb mach in
    value (R_n h) self
      = Real (speed_of_sound h * 0.0008957066031914082 / 12) /\
    value (Rn_star h) self
      = Real (speed_of_sound h * 0.0008957066031914082 * (5.333 + 1.333) / 12
              * Rn_factor (M self)).
Proof.
  intros vb mach h self. split; [apply R_n_init|apply Rn_star_init].
Qed.

End DragMore.

(* ----------------------------------------------------------------- *)
(** ** Exceptions of the drag coefficient *)

Section DragErrors.

Import Drag Driver Spec.

Ltac exec :=
  repeat (rewrite value_bind by auto with frame; cbv beta);
  rewrite ?value_this, ?value_ret.

Lemma py_mul_raise (e : PyErr) (u : val) : py_mul (Raise e) u = Raise e.
Proof. reflexivity. Qed.

Lemma py_add_raise (e : PyErr) (u : val) : py_add (Raise e) u = Raise e.
Proof. reflexivity. Qed.

(** X10: [C_f_final] returns the larger of [C_f] and [C_f_term] when both
    are real numbers, and raises [TypeError] when [C_f] is complex, which the
    comparison does not accept. *)
Theorem C_f_final_is_maximum :
  forall (self : Rocket) (h : R),
    (forall cf ct : R,
       value (C_f h) self = Real cf -> value C_f_term self = Real ct ->
       value (C_f_final h) self = Real (Rmax cf ct)) /\
    (forall (re im ct : R),
       value (C_f h) self = Complex re im -> value C_f_term self = Real ct ->
       value (C_f_final h) self = Raise TypeError) /\
    (forall e : PyErr,
       value (C_f h) self = Raise e -> value (C_f_final h) self = Raise e).
Proof.
  intros self h. split; [|split].
  - intros cf ct Hcf Hct. unfold C_f_final. exec. rewrite Hcf, Hct.
    cbn [py_ge compare_with]. unfold Rmax.
    destruct (Rge_dec cf ct) as [Hge|Hlt].
    + change (value (C_f h) self = Real (if Rle_dec cf ct then ct else cf)).
      rewrite Hcf. destruct (Rle_dec cf ct); [f_equal; lra|reflexivity].
    + change (value C_f_term self = Real (if Rle_dec cf ct then ct else cf)).
      rewrite Hct. destruct (Rle_dec cf ct); [reflexivity|lra].
  - intros re im ct Hcf Hct. unfold C_f_final. exec. rewrite Hcf, Hct.
    reflexivity.
  - intros e Hcf. unfold C_f_final. exec. rewrite Hcf. reflexivity.
Qed.

Lemma C_f_final_is_maximum_witness :
  exists cf ct : R,
    value (C_f 500) (__init__ None (Some 0.5)) = Real cf /\
    value C_f_term (__init__ None (Some 0.5)) = Real ct /\
    value (C_f_final 500) (__init__ None (Some 0.5)) = Real (Rmax cf ct).
Proof.
  assert (HM : 0 < M (__init__ None (Some 0.5)) < 1).
  { cbn [M __init__]. destruct (Req_dec_T 0.5 0); cbn [snd]; lra. }
  assert (Hsos : 0 < speed_of_sound 500 < 1339)
    by (rewrite speed_of_sound_500; lra).
  destruct (C_f_real (__init__ None (Some 0.5)) 500
              (init_geometry None (Some 0.5))
              (init_M_velocity None (Some 0.5)) HM Hsos) as (cf & Hcf).
  destruct (C_f_term_pos (__init__ None (Some 0.5))
              (init_geometry None (Some 0.5)) HM) as (ct & Hct & _).
  exists cf, ct. split; [exact Hcf|]. split; [exact Hct|].
  apply (proj1 (C_f_final_is_maximum (__init__ None (Some 0.5)) 500) cf ct Hcf Hct).
Defined.

Lemma C_f_final_raise (self : Rocket) (h : R) (e : PyErr) :
  value (C_f h) self = Raise e -> value (C_f_final h) self = Raise e.
Proof.
  intros Hcf. unfold C_f_final. exec. rewrite Hcf. reflexivity.
Qed.

Lemma C_f_raise (self : Rocket) (h : R) (e : PyErr) :
  value (Rn_star h) self = Raise e -> value (C_f h) self = Raise e.
Proof.
  intros Hrn. unfold C_f. exec. unfold C_f_star. exec. rewrite Hrn. reflexivity.
Qed.

(** An exception of [C_f_final] is the exception of the drag coefficient:
    it is the first value each enclosing expression evaluates. *)
Lemma drag_coefficient_raise (self : Rocket) (h : R) (e : PyErr) :
  value (C_f_final h) self = Raise e ->
  value (drag_coefficient h) self = Raise e.
Proof.
  intros Hcff.
  assert (Hbfd : value (body_friction_drag h) self = Raise e).
  { unfold body_friction_drag. exec. rewrite Hcff. reflexivity. }
  assert (Hsfd : value (skin_friction_drag h) self = Raise e).
  { unfold skin_friction_drag. exec. rewrite Hbfd.
    destruct (verbose self).
    - exec. rewrite Hbfd. reflexivity.
    - reflexivity. }
  unfold drag_coefficient. exec. rewrite orb_true_r. exec.
  rewrite Hsfd. reflexivity.
Qed.

Lemma Rn_star_zero_velocity (self : Rocket) (h : R) :
  velocity self = 0 -> value (Rn_star h) self = Raise ZeroDivisionError.
Proof.
  intros Hv. unfold value. rewrite Rn_star_run. cbn [fst].
  unfold Rn_star_spec. rewrite Hv.
  replace (12 * 0) with 0 by ring. rewrite py_div_zero. reflexivity.
Qed.

(** X11: an instance whose airspeed has been set to zero cannot be
    evaluated: [Rn_star], [R_n] and with them the drag coefficient raise
    [ZeroDivisionError] at every altitude.  The constructor never produces
    such an instance. *)
Theorem zero_velocity_raises :
  (forall (self : Rocket) (h : R),
     velocity self = 0 ->
     value (Rn_star h) self = Raise ZeroDivisionError /\
     value (R_n h) self = Raise ZeroDivisionError /\
     value (drag_coefficient h) self = Raise ZeroDivisionError) /\
  (forall (vb : option bool) (mach : option R), velocity (__init__ vb mach) <> 0).
Proof.
  split; [|apply init_velocity_nonzero].
  intros self h Hv.
  assert (Hrn := Rn_star_zero_velocity self h Hv).
  split; [exact Hrn|]. split.
  - unfold R_n, value, bind, this, ret. rewrite a_run. cbn [fst].
    rewrite Hv. cbn [py_mul arith].
    replace (12 * 0) with 0 by ring. apply py_div_zero.
  - now apply drag_coefficient_raise, C_f_final_raise, C_f_raise.
Qed.

Lemma zero_velocity_raises_witness :
  value (Rn_star 500) (set_velocity 0 d) = Raise ZeroDivisionError /\
  value (R_n 500) (set_velocity 0 d) = Raise ZeroDivisionError /\
  value (drag_coefficient 500) (set_velocity 0 d) = Raise ZeroDivisionError.
Proof.
  apply (proj1 zero_velocity_raises (set_velocity 0 d) 500). reflexivity.
Defined.

Lemma Rn_factor_negative (m : R) : m <= -2 -> Rn_factor m < 0.
Proof.
  intros Hm. unfold Rn_factor.
  assert (H2 : 4 <= m ^ 2) by nra.
  assert (H3 : m ^ 3 <= -8) by nra.
  assert (H4 : 0 <= m ^ 4) by nra.
  assert (H5 : m ^ 5 <= 0) by nra.
  assert (H1 : - m <= - m ^ 3 / 4) by nra.
  nra.
Qed.


Lemma C_f_term_real (self : Rocket) :
  default_geometry self -> exists ct : R, value C_f_term self = Real ct.
Proof.
  intros (Hncl & Hbtl & _ & _ & _ & HK & _).
  unfold C_f_term. exec. unfold C_f_term_star. exec.
  rewrite Hbtl, Hncl, HK. cbn [py_add arith].
  rewrite py_div_real by lra. rewrite log10_pos by lra.
  cbn [py_add py_mul arith].
  assert (Hlg : 0 < ln ((5.333 + 1.333) / 0.0004) / ln 10).
  { apply log10_gt_1. lra. }
  rewrite py_pow_pos by lra.
  assert (Hp := Rpower_pos (1.89 + 1.62 * (ln ((5.333 + 1.333) / 0.0004) / ln 10)) 2.5).
  rewrite py_div_real by lra. rewrite py_pow_2. cbn [py_add py_mul arith].
  assert (Hd : 0 < 1 + 0.2044 * M self ^ 2) by nra.
  rewrite py_div_real by lra. eexists. reflexivity.
Qed.

Lemma C_f_complex (self : Rocket) (h : R) (rn : R) :
  value (Rn_star h) self = Real rn -> rn < 0 ->
  exists re im : R, value (C_f h) self = Complex re im.
Proof.
  intros Hrn Hneg. unfold C_f. exec. unfold C_f_star. exec. rewrite Hrn.
  rewrite py_pow_real.
  rewrite float_pow_neg_frac by (first [exact Hneg | apply (fractional (-1)); lra]).
  rewrite py_pow_2, py_pow_3, py_pow_4, py_pow_5.
  cbn [py_add py_sub py_mul arith c_prod fst snd].
  eexists. eexists. reflexivity.
Qed.

(** X12: a Mach argument between -1000 and -2 makes the drag coefficient
    raise [TypeError] at every altitude from 0 to 590000 ft: the polynomial
    factor of [Rn_star] is negative there, its fractional power is complex,
    and [C_f_final] compares it with a real number.  On these ranges no
    power or product leaves the range of floats. *)
Theorem negative_mach_raises_TypeError :
  forall (vb : option bool) (m h : R),
    -1000 <= m <= -2 ->
    0 <= h <= 590000 ->
    (exists rn : R,
       value (Rn_star h) (__init__ vb (Some m)) = Real rn /\ rn < 0) /\
    (exists re im : R,
       value (C_f h) (__init__ vb (Some m)) = Complex re im) /\
    value (C_f_final h) (__init__ vb (Some m)) = Raise TypeError /\
    value (drag_coefficient h) (__init__ vb (Some m)) = Raise TypeError.
Proof.
  intros vb m h [_ Hm] _.
  set (self := __init__ vb (Some m)).
  assert (HM : M self = m).
  { subst self. cbn [M __init__]. destruct (Req_dec_T m 0); [lra|reflexivity]. }
  assert (Hsos := speed_of_sound_pos h).
  assert (Hc := mach_per_fps_pos).
  assert (Hf := Rn_factor_negative m Hm).
  assert (Hrn : exists rn : R, value (Rn_star h) self = Real rn /\ rn < 0).
  { eexists. split; [apply Rn_star_init|].
    fold self. rewrite HM.
    assert (0 < speed_of_sound h * mach_per_fps * (5.333 + 1.333) / 12).
    { assert (H1 : 0 < speed_of_sound h * mach_per_fps)
        by (apply Rmult_lt_0_compat; lra).
      apply Rdiv_lt_0_compat; [|lra].
      apply Rmult_lt_0_compat; lra. }
    nra. }
  destruct Hrn as (rn & Hrn & Hneg).
  destruct (C_f_complex self h rn Hrn Hneg) as (re & im & Hcf).
  destruct (C_f_term_real self (init_geometry vb (Some m))) as (ct & Hct).
  assert (Hcff : value (C_f_final h) self = Raise TypeError).
  { unfold C_f_final. exec. rewrite Hcf, Hct. reflexivity. }
  split; [eauto|]. split; [eauto|]. split; [exact Hcff|].
  now apply drag_coefficient_raise.
Qed.

Lemma negative_mach_raises_TypeError_witness :
  (exists rn : R,
     value (Rn_star 500) (__init__ None (Some (-3))) = Real rn /\ rn < 0) /\
  (exists re im : R,
     value (C_f 500) (__init__ None (Some (-3))) = Complex re im) /\
  value (C_f_final 500) (__init__ None (Some (-3))) = Raise TypeError /\
  value (drag_coefficient 500) (__init__ None (Some (-3))) = Raise TypeError.
Proof.
  apply (negative_mach_raises_TypeError None (-3) 500); lra.
Defined.

End DragErrors.

(* ----------------------------------------------------------------- *)
(** ** The verbose flag *)

Section Verbose.

Import Drag Driver Spec.

Variable b : bool.
Variable self : Rocket.

Ltac exec :=
  repeat (rewrite value_bind by auto with frame; cbv beta);
  rewrite ?value_this, ?value_ret.

Ltac same m := unfold m; exec; reflexivity.

Lemma a_verbose h : value (a h) (set_verbose b self) = value (a h) self.
Proof. reflexivity. Qed.

Lemma Rn_star_verbose h :
  value (Rn_star h) (set_verbose b self) = value (Rn_star h) self.
Proof. unfold Rn_star. exec. rewrite a_verbose. reflexivity. Qed.

Lemma C_f_star_verbose h :
  value (C_f_star h) (set_verbose b self) = value (C_f_star h) self.
Proof. unfold C_f_star. exec. rewrite Rn_star_verbose. reflexivity. Qed.

Lemma C_f_verbose h : value (C_f h) (set_verbose b self) = value (C_f h) self.
Proof. unfold C_f. exec. rewrite C_f_star_verbose. reflexivity. Qed.

Lemma C_f_term_star_verbose :
  value C_f_term_star (set_verbose b self) = value C_f_term_star self.
Proof. reflexivity. Qed.

Lemma C_f_term_verbose :
  value C_f_term (set_verbose b self) = value C_f_term self.
Proof. unfold C_f_term. exec. rewrite C_f_term_star_verbose. reflexivity. Qed.

Lemma C_f_final_verbose h :
  value (C_f_final h) (set_verbose b self) = value (C_f_final h) self.
Proof.
  unfold C_f_final. exec. rewrite C_f_verbose, C_f_term_verbose.
  destruct (py_ge _ _) as [e|[|]].
  - reflexivity.
  - apply C_f_verbose.
  - apply C_f_term_verbose.
Qed.

Lemma body_friction_drag_verbose h :
  value (body_friction_drag h) (set_verbose b self)
  = value (body_friction_drag h) self.
Proof. unfold body_friction_drag. exec. rewrite C_f_final_verbose. reflexivity. Qed.

Lemma R_n_verbose h : value (R_n h) (set_verbose b self) = value (R_n h) self.
Proof. unfold R_n. exec. rewrite a_verbose. reflexivity. Qed.

Lemma C_f_lambda_verbose h :
  value (C_f_lambda h) (set_verbose b self) = value (C_f_lambda h) self.
Proof.
  unfold C_f_lambda. exec. rewrite C_f_final_verbose, !R_n_verbose. reflexivity.
Qed.

Lemma fin_friction_drag_verbose h :
  value (fin_friction_drag h) (set_verbose b self)
  = value (fin_friction_drag h) self.
Proof. unfold fin_friction_drag. exec. rewrite C_f_lambda_verbose. reflexivity. Qed.

Lemma excrescencies_friction_drag_verbose :
  value excrescencies_friction_drag (set_verbose b self)
  = value excrescencies_friction_drag self.
Proof. reflexivity. Qed.

(** What [print] interpolates is evaluated again by the sum that follows, in
    the same order, so the exception is the same. *)
Lemma print_then_skin_sum (bfd ffd efd : val) (kf : R) :
  after (print [bfd; ffd; Real 0])
        (py_add (py_add (py_add bfd (py_mul (Real kf) ffd))
                        (py_mul (Real kf) (Real 0))) efd)
  = py_add (py_add (py_add bfd (py_mul (Real kf) ffd))
                   (py_mul (Real kf) (Real 0))) efd.
Proof. destruct bfd, ffd; reflexivity. Qed.

Lemma print_then_total (s bd t w : val) :
  after (print [s; bd; t; w]) (py_add (py_add (py_add s bd) t) w)
  = py_add (py_add (py_add s bd) t) w.
Proof. destruct s, bd, t, w; reflexivity. Qed.

End Verbose.

Section VerboseTotal.

Import Drag Driver Spec.

Ltac exec :=
  repeat (rewrite value_bind by auto with frame; cbv beta);
  rewrite ?value_this, ?value_ret.

Lemma skin_friction_drag_sum (self : Rocket) (h : R) :
  value (skin_friction_drag h) self
  = py_add
      (py_add
         (py_add (value (body_friction_drag h) self)
                 (py_mul (Real (K_f self)) (value (fin_friction_drag h) self)))
         (py_mul (Real (K_f self)) (Real 0)))
      (value excrescencies_friction_drag self).
Proof.
  unfold skin_friction_drag. exec.
  change (value protuberance_friction_drag self) with (Real 0).
  destruct (verbose self).
  - exec. change (value protuberance_friction_drag self) with (Real 0).
    apply print_then_skin_sum.
  - reflexivity.
Qed.

Lemma skin_friction_drag_verbose (b : bool) (self : Rocket) (h : R) :
  value (skin_friction_drag h) (set_verbose b self)
  = value (skin_friction_drag h) self.
Proof.
  rewrite !skin_friction_drag_sum.
  rewrite body_friction_drag_verbose, fin_friction_drag_verbose,
    excrescencies_friction_drag_verbose.
  reflexivity.
Qed.

Lemma base_drag_verbose (b : bool) (self : Rocket) (h : R) :
  value (base_drag h) (set_verbose b self) = value (base_drag h) self.
Proof.
  unfold value. rewrite !base_drag_run. cbn [fst]. unfold base_drag_spec.
  rewrite skin_friction_drag_verbose. reflexivity.
Qed.

Lemma transonic_wave_drag_verbose (b : bool) (self : Rocket) :
  value transonic_wave_drag (set_verbose b self) = value transonic_wave_drag self.
Proof.
  unfold transonic_wave_drag. exec.
  change (value M_d (set_verbose b self)) with (value M_d self).
  change (M (set_verbose b self)) with (M self).
  destruct (py_le (value M_d self) (Real (M self))) as [e|[|]];
    [reflexivity| |reflexivity].
  cbn [branch]. exec.
  change (value M_f (set_verbose b self)) with (value M_f self).
  change (M (set_verbose b self)) with (M self).
  destruct (py_le (Real (M self)) (value M_f self)) as [e|[|]]; reflexivity.
Qed.

Lemma drag_coefficient_sum (self : Rocket) (h : R) :
  value (drag_coefficient h) self
  = py_add
      (py_add
         (py_add (value (skin_friction_drag h) self) (value (base_drag h) self))
         (value transonic_wave_drag self))
      (value supersonic_wave_drag self).
Proof.
  unfold drag_coefficient. exec. rewrite orb_true_r. exec.
  apply print_then_total.
Qed.

(** X13: the [verbose] flag changes what is printed and nothing else: the
    skin-friction drag and the drag coefficient of an instance, value or
    exception, are the same with the flag set and cleared, and each is the
    sum of its components as if nothing were printed. *)
Theorem verbose_only_prints :
  forall (b : bool) (self : Rocket) (h : R),
    value (skin_friction_drag h) (set_verbose b self)
      = value (skin_friction_drag h) self /\
    value (drag_coefficient h) (set_verbose b self)
      = value (drag_coefficient h) self /\
    value (drag_coefficient h) self
      = py_add
          (py_add
             (py_add (value (skin_friction_drag h) self)
                     (value (base_drag h) self))
             (value transonic_wave_drag self))
          (Real 0).
Proof.
  intros b self h.
  split; [apply skin_friction_drag_verbose|]. split.
  - rewrite !drag_coefficient_sum.
    rewrite skin_friction_drag_verbose, base_drag_verbose,
      transonic_wave_drag_verbose.
    reflexivity.
  - apply drag_coefficient_sum.
Qed.

End VerboseTotal.

(* ----------------------------------------------------------------- *)
(** ** The complex value behind [C_f_lambda], and the transonic band *)

Section TaperImaginary.

Import Drag Driver Spec.

Ltac exec :=
  repeat (rewrite value_bind by auto with frame; cbv beta);
  rewrite ?value_this, ?value_ret.

(** [C_f_lambda] is the real part of [taper_value]. *)
Lemma C_f_lambda_real_part (self : Rocket) (h : R) :
  value (C_f_lambda h) self
  = assigned (py_div (Real (fin_height_short self)) (Real (fin_height_long self)))
      (real (taper_value (value (C_f_final h) self) (value (R_n h) self)
               (py_div (Real (fin_height_short self))
                       (Real (fin_height_long self))))).
Proof. unfold C_f_lambda. exec. reflexivity. Qed.

(** The whole product of [taper_correction], not only its real part. *)
Lemma taper_correction_complex (cf l2 r1 r2 r3 r4 c s c' s' : R) :
  c * c + s * s = 1 -> c' = - c -> s' = - s ->
  r1 <> 0 -> r2 <> 0 -> r3 <> 0 -> r4 <> 0 -> l2 <> 1 ->
  py_mul
    (py_mul (Real cf)
       (py_div (Complex (r1 * c) (r1 * s)) (py_sub (Real l2) (Real 1))))
    (py_add
       (py_sub
          (py_div (Real l2) (Complex (r2 * c) (r2 * s)))
          (py_div (Real 1) (Complex (r1 * c) (r1 * s))))
       (py_mul (Real 0.5646)
          (py_sub
             (py_div (Real l2) (Complex (r4 * c') (r4 * s')))
             (py_div (Real 1) (Complex (r3 * c') (r3 * s'))))))
  = Complex
      (cf * r1 / (l2 - 1) * (l2 / r2 - 1 / r1 - 0.5646 * (l2 / r4 - 1 / r3)))
      0.
Proof.
  intros Hunit Hc Hs H1 H2 H3 H4 Hl.
  assert (Hunit' : c' * c' + s' * s' = 1) by (subst; lra).
  cbn [py_mul py_div py_sub py_add arith].
  rewrite !c_quot_polar by assumption.
  rewrite c_quot_real by lra.
  cbn [py_mul py_div py_sub py_add arith c_prod c_diff c_sum fst snd].
  unfold c_prod. cbn [fst snd].
  subst c' s'. f_equal.
  - transitivity
      (cf * r1 / (l2 - 1) * (l2 / r2 - 1 / r1 - 0.5646 * (l2 / r4 - 1 / r3))
       * (c * c + s * s)).
    + field. repeat split; try assumption. lra.
    + rewrite Hunit. ring.
  - field. repeat split; try assumption. lra.
Qed.

(** X14: for a constructed instance below Mach one, at an altitude from 0 to
    590000 ft, the expression of which [C_f_lambda] returns the real part is
    a complex number whose imaginary part is exactly zero in exact
    arithmetic: taking [.real] discards nothing, and the value returned is
    positive. *)
Theorem C_f_lambda_imaginary_part_cancels :
  forall (vb : option bool) (mach : option R) (h : R),
    let self := __init__ vb mach in
    0 < M self < 1 ->
    0 <= h <= 590000 ->
    exists r : R,
      taper_value (value (C_f_final h) self) (value (R_n h) self)
        (py_div (Real (fin_height_short self)) (Real (fin_height_long self)))
      = Complex r 0 /\
      value (C_f_lambda h) self = Real r /\
      0 < r.
Proof.
  intros vb mach h self HM Hh.
  assert (Hgeom : default_geometry self) by apply init_geometry.
  assert (HMV : M self = mach_per_fps * velocity self) by apply init_M_velocity.
  assert (Hsos : 0 < speed_of_sound h < 1339).
  { unfold speed_of_sound, a_low, a_mid, a_high.
    destruct (Rle_dec h 37000); [lra|]. destruct (Rle_dec h 64000); lra. }
  destruct (C_f_final_pos self h Hgeom HMV HM Hsos) as (cff & Hcff & Hpos).
  assert (HRn := Rn_fin_bounds self h HMV HM Hsos).
  assert (Hrn := R_n_value self h Hgeom HMV HM).
  set (Rn := fin_reynolds h self) in *.
  rewrite C_f_lambda_real_part. rewrite Hcff, Hrn.
  destruct Hgeom as (_ & _ & _ & _ & _ & _ & _ & _ & Hfhl & Hfhs & _).
  rewrite Hfhs, Hfhl. rewrite py_div_real by lra.
  cbn [assigned]. unfold taper_value.
  rewrite !py_mul_real, py_pow_2.
  set (l := 0.333 / 1).
  assert (Hl : l = 0.333) by (unfold l; lra).
  assert (Hlg : ln Rn / ln 10 < -1) by (apply log10_lt_tenth; lra).
  assert (Hlgl : ln (Rn * l) / ln 10 < ln Rn / ln 10).
  { assert (H10 := ln_10_pos).
    apply Rmult_lt_compat_r; [apply Rinv_0_lt_compat; lra|].
    apply ln_increasing; nra. }
  rewrite !log10_pos by nra.
  rewrite !py_pow_real.
  rewrite !float_pow_neg_frac
    by (first [lra | apply (fractional 2); lra | apply (fractional 3); lra]).
  set (lg := ln Rn / ln 10) in *.
  set (lgl := ln (Rn * l) / ln 10) in *.
  rewrite (taper_correction_complex cff (l ^ 2)
             (Rpower (- lg) 2.6) (Rpower (- lgl) 2.6)
             (Rpower (- lg) 3.6) (Rpower (- lgl) 3.6)
             (cos (PI * 2.6)) (sin (PI * 2.6))
             (cos (PI * 3.6)) (sin (PI * 3.6))).
  - eexists. split; [reflexivity|]. split; [reflexivity|].
    assert (P1 := Rpower_pos (- lg) 2.6).
    assert (P2 := Rpower_pos (- lgl) 2.6).
    assert (P3 := Rpower_pos (- lg) 3.6).
    assert (P4 := Rpower_pos (- lgl) 3.6).
    assert (H12 : Rpower (- lg) 2.6 < Rpower (- lgl) 2.6).
    { apply Rlt_Rpower_l; lra. }
    assert (H13 : Rpower (- lg) 2.6 < Rpower (- lg) 3.6).
    { apply Rpower_lt; lra. }
    set (r1 := Rpower (- lg) 2.6) in *.
    set (r2 := Rpower (- lgl) 2.6) in *.
    set (r3 := Rpower (- lg) 3.6) in *.
    set (r4 := Rpower (- lgl) 3.6) in *.
    assert (Hl2 : l ^ 2 = 0.110889) by (rewrite Hl; lra).
    rewrite Hl2.
    assert (I1 : / r2 < / r1) by (apply Rinv_lt_contravar; nra).
    assert (I3 : / r3 < / r1) by (apply Rinv_lt_contravar; nra).
    assert (I4 : 0 < / r4) by (apply Rinv_0_lt_compat; lra).
    assert (I0 : 0 < / r1) by (apply Rinv_0_lt_compat; lra).
    assert (HX : 0.110889 / r2 - 1 / r1 - 0.5646 * (0.110889 / r4 - 1 / r3) < 0).
    { unfold Rdiv. nra. }
    assert (HP : cff * r1 / (0.110889 - 1) < 0).
    { unfold Rdiv.
      assert (0 < cff * r1) by (apply Rmult_lt_0_compat; lra).
      assert (/ (0.110889 - 1) < 0) by (apply Rinv_lt_0_compat; lra).
      nra. }
    nra.
  - rewrite <- (sin2_cos2 (PI * 2.6)). unfold Rsqr. ring.
  - replace (PI * 3.6) with (PI * 2.6 + PI) by lra. apply neg_cos.
  - replace (PI * 3.6) with (PI * 2.6 + PI) by lra. apply neg_sin.
  - apply Rgt_not_eq, Rpower_pos.
  - apply Rgt_not_eq, Rpower_pos.
  - apply Rgt_not_eq, Rpower_pos.
  - apply Rgt_not_eq, Rpower_pos.
  - rewrite Hl. lra.
Qed.

Lemma init_M_some (vb : option bool) (m : R) :
  m <> 0 -> M (__init__ vb (Some m)) = m.
Proof.
  intros Hm. cbn [M __init__]. destruct (Req_dec_T m 0); [contradiction|reflexivity].
Qed.

Lemma C_f_lambda_imaginary_part_cancels_witness :
  exists r : R,
    taper_value (value (C_f_final 500) (__init__ None (Some 0.5)))
      (value (R_n 500) (__init__ None (Some 0.5)))
      (py_div (Real (fin_height_short (__init__ None (Some 0.5))))
              (Real (fin_height_long (__init__ None (Some 0.5)))))
    = Complex r 0 /\
    value (C_f_lambda 500) (__init__ None (Some 0.5)) = Real r /\
    0 < r.
Proof.
  apply (C_f_lambda_imaginary_part_cancels None (Some 0.5) 500).
  - rewrite init_M_some by lra. lra.
  - lra.
Defined.

End TaperImaginary.

(* ----------------------------------------------------------------- *)
(** ** The transonic band and the subsonic range *)

Section TransonicBand.

Import Drag Driver Spec.

Ltac exec :=
  repeat (rewrite value_bind by auto with frame; cbv beta);
  rewrite ?value_this, ?value_ret.

Lemma M_d_value (self : Rocket) :
  default_geometry self -> value M_d self = Real M_d_default.
Proof.
  intros (Hncl & _ & Hrad & _).
  unfold M_d. exec. rewrite Hncl, Hrad.
  cbn [py_mul arith]. rewrite !py_div_real by lra. rewrite py_pow_2.
  reflexivity.
Qed.

Lemma M_d_default_bounds : 0.976 < M_d_default < 0.977.
Proof. unfold M_d_default. lra. Qed.

Lemma M_f_above (self : Rocket) :
  default_geometry self -> exists mf : R, value M_f self = Real mf /\ 1.0275 < mf.
Proof.
  intros (Hncl & Hbtl & Hrad & _).
  unfold M_f. exec. rewrite Hncl, Hbtl, Hrad.
  cbn [py_add py_mul arith]. rewrite !py_div_real by lra.
  cbn [py_lt compare_with].
  destruct (Rlt_dec (1.333 / (1.333 + 5.333)) 0.2); [|lra].
  cbn [py_if]. rewrite py_pow_pos by lra. cbn [py_add py_mul arith].
  eexists. split; [reflexivity|].
  assert (Hp := Rpower_pos ((1.333 + 5.333) / (2 * 0.1666)) (-1.05)). lra.
Qed.

(** X15: in a constructed instance the drag-divergence Mach number is the
    constant [M_d], between 0.976 and 0.977.  Below it the transonic wave
    drag is zero; from 0.977 up to at least Mach 1.0275 it is the positive
    constant [C_d_max]: the component switches on in one step. *)
Theorem transonic_wave_drag_band :
  forall (vb : option bool) (mach : option R),
    let self := __init__ vb mach in
    value M_d self = Real M_d_default /\
    0.976 < M_d_default < 0.977 /\
    (M self < 0.976 -> value transonic_wave_drag self = Real 0) /\
    (0.977 <= M self <= 1.0275 ->
     exists c : R,
       value C_d_max self = Real c /\ 0 < c /\
       value transonic_wave_drag self = Real c).
Proof.
  intros vb mach self.
  assert (Hgeom : default_geometry self) by apply init_geometry.
  assert (Hmd := M_d_value self Hgeom).
  assert (Hb := M_d_default_bounds).
  split; [exact Hmd|]. split; [exact Hb|]. split.
  - intros HM. unfold transonic_wave_drag. exec. rewrite Hmd.
    cbn [py_le compare_with].
    destruct (Rle_dec M_d_default (M self)); [lra|]. reflexivity.
  - intros HM.
    destruct (M_f_above self Hgeom) as (mf & Hmf & Habove).
    destruct (C_d_max_pos self Hgeom) as (c & Hc & Hpos).
    exists c. split; [exact Hc|]. split; [exact Hpos|].
    unfold transonic_wave_drag. exec. rewrite Hmd.
    cbn [py_le compare_with].
    destruct (Rle_dec M_d_default (M self)); [|lra].
    cbn [branch]. exec. rewrite Hmf.
    cbn [py_le compare_with].
    destruct (Rle_dec (M self) mf); [|lra].
    exact Hc.
Qed.

Lemma transonic_wave_drag_band_witness :
  exists c : R,
    value C_d_max (__init__ None (Some 0.98)) = Real c /\ 0 < c /\
    value transonic_wave_drag (__init__ None (Some 0.98)) = Real c.
Proof.
  apply (proj2 (proj2 (proj2 (transonic_wave_drag_band None (Some 0.98))))).
  rewrite init_M_some by lra. lra.
Defined.

(** X16: below Mach 0.78 the drag coefficient is defined everywhere: for
    every Mach argument from 0 up to 0.78 and every altitude from 0 to
    590000 ft, [drag_coefficient] returns a positive real number. *)
Theorem subsonic_drag_coefficient_positive :
  forall (vb : option bool) (m h : R),
    0 <= m < 0.78 ->
    0 <= h <= 590000 ->
    exists r : R,
      value (drag_coefficient h) (__init__ vb (Some m)) = Real r /\ 0 < r.
Proof.
  intros vb m h Hm Hh.
  set (self := __init__ vb (Some m)).
  assert (HM : 0 < M self < 0.78).
  { subst self. cbn [M __init__].
    destruct (Req_dec_T m 0); cbn [snd]; [unfold mach_per_fps|]; lra. }
  apply drag_coefficient_pos.
  - apply init_geometry.
  - apply init_S_B_pos.
  - apply init_M_velocity.
  - fold self. lra.
  - unfold speed_of_sound, a_low, a_mid, a_high.
    destruct (Rle_dec h 37000); [lra|]. destruct (Rle_dec h 64000); lra.
  - fold self. rewrite excrescence_k_low by lra. lra.
Qed.

Lemma subsonic_drag_coefficient_positive_witness :
  exists r : R,
    value (drag_coefficient 4450) (__init__ None (Some 0.3)) = Real r /\ 0 < r.
Proof.
  apply (subsonic_drag_coefficient_positive None 0.3 4450); lra.
Defined.

End TransonicBand.

(* ----------------------------------------------------------------- *)
(** ** The base drag at low Mach numbers, and the speed of sound *)

Section BaseDragLow.

Import Drag Driver Spec.

Lemma K_b_value (self : Rocket) :
  default_geometry self ->
  value K_b self = Real (0.0274 * atan (5.333 / (2 * 0.1666) + 0.0116)).
Proof.
  intros (_ & Hbtl & _ & _ & Hdia & _).
  unfold K_b, value, bind, this, ret. cbn [fst]. rewrite Hbtl, Hdia.
  rewrite py_div_real by lra. reflexivity.
Qed.

Lemma ratio_power_one (e : R) : Rpower (0.1666 / 0.1666) e = 1.
Proof.
  replace (0.1666 / 0.1666) with 1 by lra.
  unfold Rpower. rewrite ln_1, Rmult_0_r. apply exp_0.
Qed.

(** X17: in a constructed instance flying at a Mach number from 0 to 0.78,
    at an altitude from 0 to 590000 ft, the radius ratio drops out of the
    base drag: it is [K_b] over the square root of the skin-friction drag, as
    it stands up to Mach 0.6 and times [1 + 215.8 (M - 0.6)^6] above; [K_b]
    is a constant between 0 and [0.0274 * PI / 2]. *)
Theorem base_drag_low_mach :
  forall (vb : option bool) (m h : R),
    0 <= m < 0.78 ->
    0 <= h <= 590000 ->
    let self := __init__ vb (Some m) in
    exists s kb : R,
      value (skin_friction_drag h) self = Real s /\ 0 < s /\
      value K_b self = Real kb /\ 0 < kb < 0.0274 * (PI / 2) /\
      value (base_drag h) self
      = Real (if Rle_dec (M self) 0.6 then kb / sqrt s
              else kb / sqrt s * (1 + 215.8 * (M self - 0.6) ^ 6)).
Proof.
  intros vb m h Hm Hh self.
  assert (Hgeom : default_geometry self) by apply init_geometry.
  assert (HM : 0 < M self < 0.78).
  { subst self. cbn [M __init__].
    destruct (Req_dec_T m 0); cbn [snd]; [unfold mach_per_fps|]; lra. }
  assert (Hsos : 0 < speed_of_sound h < 1339).
  { unfold speed_of_sound, a_low, a_mid, a_high.
    destruct (Rle_dec h 37000); [lra|]. destruct (Rle_dec h 64000); lra. }
  destruct (skin_friction_drag_pos self h Hgeom (init_S_B_pos vb (Some m))
              (init_M_velocity vb (Some m)) ltac:(lra) Hsos)
    as (s & Hs & Hpos).
  { rewrite excrescence_k_low by lra. lra. }
  assert (Hkb := K_b_value self Hgeom).
  set (t := 5.333 / (2 * 0.1666) + 0.0116) in *.
  assert (Hatan : 0 < atan t < PI / 2).
  { split.
    - rewrite <- atan_0. apply atan_increasing. unfold t. lra.
    - apply atan_bound. }
  exists s, (0.0274 * atan t).
  split; [exact Hs|]. split; [exact Hpos|]. split; [exact Hkb|].
  split; [lra|].
  assert (Hsq : 0 < sqrt s) by (apply sqrt_lt_R0; exact Hpos).
  unfold value. rewrite base_drag_run. cbn [fst]. unfold base_drag_spec.
  fold (value (skin_friction_drag h) self). rewrite Hs.
  destruct Hgeom as (_ & Hbtl & Hrad & Hbtr & Hdia & _).
  rewrite Hbtl, Hdia, Hbtr, Hrad.
  rewrite !py_div_real by lra.
  rewrite !py_pow_pos by lra. cbn [py_mul py_add arith py_atan].
  rewrite py_pow_pos by lra. rewrite ratio_power_one.
  cbn [py_sqrt]. destruct (Rle_dec 0 s); [|lra].
  rewrite py_div_real by lra. cbn [py_mul arith].
  fold t. unfold regime_multiplier.
  destruct (Rle_dec (M self) 0.6).
  - f_equal. field. lra.
  - destruct (Rlt_dec (M self) 1); [|lra].
    cbn [py_mul arith]. f_equal. field. lra.
Qed.

Lemma base_drag_low_mach_witness :
  exists s kb : R,
    value (skin_friction_drag 500) (__init__ None (Some 0.5)) = Real s /\ 0 < s /\
    value K_b (__init__ None (Some 0.5)) = Real kb /\
    0 < kb < 0.0274 * (PI / 2) /\
    value (base_drag 500) (__init__ None (Some 0.5))
    = Real (if Rle_dec (M (__init__ None (Some 0.5))) 0.6 then kb / sqrt s
            else kb / sqrt s
                 * (1 + 215.8 * (M (__init__ None (Some 0.5)) - 0.6) ^ 6)).
Proof.
  apply (base_drag_low_mach None 0.5 500); lra.
Defined.

(** X18: the speed of sound is at least 968.08 ft/s at every altitude, the
    value it takes exactly on the middle band; [a] therefore never returns
    zero or a negative number, and it never raises. *)
Theorem a_lower_bound :
  forall (self : Rocket) (h : R),
    value (a h) self = Real (speed_of_sound h) /\
    968.08 <= speed_of_sound h /\
    (speed_of_sound h = 968.08 <-> 37000 < h <= 64000).
Proof.
  intros self h. split; [apply a_value|].
  unfold speed_of_sound, a_low, a_mid, a_high.
  destruct (Rle_dec h 37000); [|destruct (Rle_dec h 64000)];
    (split; [lra|split; intros; lra]).
Qed.

End BaseDragLow.
